(** * hbaselines.envs.snn4hrl.envs : the Gather environment wrappers

    A shallow embedding of [AntGatherEnv], [SwimmerGatherEnv] and
    [SnakeGatherEnv].  The three classes subclass rllab's [GatherEnv]; that
    base class is external, so its constructor, [step], [reset] and the
    attributes it owns are the variables of the section below.  Python
    exceptions are results, the instance is an explicit state, and the
    methods are written in a small state-and-exception monad so that they
    read like the source. *)

From Stdlib Require Import String ZArith List Bool Lia.
Import ListNotations.
Open Scope string_scope.
Open Scope Z_scope.

(** ** Python values that reach the constructor *)

(** A binary64 float is kept as [m * 2^e]; the constructor only stores and
    forwards these values, it never computes with them. *)
Inductive pyval :=
| PyInt (n : Z)
| PyFloat (m e : Z)
| PyBool (b : bool)
| PyNone
| PyStr (s : string).

(** [math.pi] is the double 0x400921FB54442D18; doubling it is exact. *)
Definition math_pi : pyval := PyFloat 7074237752028440 (-51).
Definition two_math_pi : pyval := PyFloat 7074237752028440 (-50).

(** ** Exceptions and results *)

Inductive exn :=
| TypeError (msg : string)
| AttributeError (attr : string)
| ValueError (msg : string)
| BaseError (msg : string).

Inductive result (A : Type) :=
| Ok (a : A)
| Raise (e : exn).
Arguments Ok {A} a.
Arguments Raise {A} e.

(** ** Slicing of a one-dimensional array

    [a[i:]] and [a[:j]] with Python's rule for a bound: a negative bound
    counts from the end and is clipped at 0, a non-negative one is clipped
    at the length. *)

Definition slice_bound (len i : Z) : nat :=
  Z.to_nat (if i <? 0 then Z.max (len + i) 0 else Z.min i len).

Definition slice_from {A} (a : list A) (i : Z) : list A :=
  skipn (slice_bound (Z.of_nat (length a)) i) a.

Definition slice_to {A} (a : list A) (j : Z) : list A :=
  firstn (slice_bound (Z.of_nat (length a)) j) a.

(** The wording of the specification: the last [k] elements of a vector,
    and the vector with its last [k] elements removed. *)
Definition last_elements {A} (k : nat) (a : list A) : list A :=
  skipn (length a - k) a.

Definition without_last {A} (k : nat) (a : list A) : list A :=
  firstn (length a - k) a.

(** ** gym.spaces.Box *)

Inductive bound :=
| NegInf
| Finite (m e : Z)
| PosInf.

Definition float_inf : bound := PosInf.

Definition float_neg (b : bound) : bound :=
  match b with
  | NegInf => PosInf
  | Finite m e => Finite (- m) e
  | PosInf => NegInf
  end.

Inductive dtype := np_float32 | np_float64.

(** [Box(low, high, shape, dtype)] with scalar bounds: every coordinate has
    the same lower and the same upper bound. *)
Record Box := mkBox {
  low : bound;
  high : bound;
  shape : list Z;
  box_dtype : dtype
}.

(** The call [Box(low=..., high=..., shape=..., dtype=...)].  The
    constructor builds the arrays of bounds with numpy, which raises
    [ValueError] for a negative dimension and for a dimension beyond
    [max_dim], the largest it builds on the platform. *)
Definition Box_init (max_dim : Z) (lo hi : bound) (sh : list Z) (dt : dtype)
  : result Box :=
  if existsb (fun d => d <? 0) sh
  then Raise (ValueError "negative dimensions are not allowed")
  else if existsb (fun d => max_dim <? d) sh
  then Raise (ValueError "Maximum allowed dimension exceeded")
  else Ok {| low := lo; high := hi; shape := sh; box_dtype := dt |}.

(** ** The class hierarchy *)

Inductive cls := AntGatherEnv | SwimmerGatherEnv | SnakeGatherEnv.

Inductive model_class := AntEnv | SwimmerEnv | SnakeEnv.

Inductive cval :=
| CModel (m : model_class)
| CInt (n : Z).

(** The direct superclass inside this module; [None] is rllab's
    [GatherEnv]. *)
Definition parent (c : cls) : option cls :=
  match c with
  | AntGatherEnv => None
  | SwimmerGatherEnv => Some AntGatherEnv
  | SnakeGatherEnv => Some AntGatherEnv
  end.

(** The class constants each class body assigns. *)
Definition own_consts (c : cls) : list (string * cval) :=
  match c with
  | AntGatherEnv =>
      [("MODEL_CLASS", CModel AntEnv); ("ORI_IND", CInt 3); ("HORIZON", CInt 500)]
  | SwimmerGatherEnv =>
      [("MODEL_CLASS", CModel SwimmerEnv); ("ORI_IND", CInt 2); ("HORIZON", CInt 500)]
  | SnakeGatherEnv =>
      [("MODEL_CLASS", CModel SnakeEnv); ("ORI_IND", CInt 2); ("HORIZON", CInt 800)]
  end.

(** The methods and properties each class body defines. *)
Definition own_methods (c : cls) : list string :=
  match c with
  | AntGatherEnv =>
      ["__init__"; "step"; "reset"; "horizon"; "observation_space"; "context_space"]
  | SwimmerGatherEnv => []
  | SnakeGatherEnv => []
  end.

(** Method resolution order, most derived class first. *)
Definition mro (c : cls) : list cls :=
  match parent c with
  | None => [c]
  | Some p => [c; p]
  end.

Fixpoint assoc {V} (k : string) (l : list (string * V)) : option V :=
  match l with
  | [] => None
  | (k', v) :: l' => if String.eqb k k' then Some v else assoc k l'
  end.

Fixpoint mem (k : string) (l : list string) : bool :=
  match l with
  | [] => false
  | k' :: l' => String.eqb k k' || mem k l'
  end.

Fixpoint lookup_const (name : string) (cs : list cls) : option cval :=
  match cs with
  | [] => None
  | c :: cs' =>
      match assoc name (own_consts c) with
      | Some v => Some v
      | None => lookup_const name cs'
      end
  end.

(** The class whose body supplies [name] for an instance of [c]; [None]
    when the lookup falls through to [GatherEnv]. *)
Fixpoint definer (name : string) (cs : list cls) : option cls :=
  match cs with
  | [] => None
  | c :: cs' => if mem name (own_methods c) then Some c else definer name cs'
  end.

(** What an instance sees as [self.MODEL_CLASS], [self.ORI_IND] and
    [self.HORIZON]. *)
Record class_consts := mkConsts {
  MODEL_CLASS : option cval;
  ORI_IND : option cval;
  HORIZON : option cval
}.

Definition consts_of (c : cls) : class_consts :=
  {| MODEL_CLASS := lookup_const "MODEL_CLASS" (mro c);
     ORI_IND := lookup_const "ORI_IND" (mro c);
     HORIZON := lookup_const "HORIZON" (mro c) |}.

(** ** Call arguments *)

Record call := mkCall {
  positional : list pyval;
  keywords : list (string * pyval)
}.

(** The named parameters of [AntGatherEnv.__init__] with their defaults, in
    the order of the signature. *)
Definition init_params : list (string * pyval) :=
  [("n_apples", PyInt 8);
   ("n_bombs", PyInt 8);
   ("activity_range", PyFloat 10 0);
   ("robot_object_spacing", PyFloat 2 0);
   ("catch_range", PyFloat 1 0);
   ("n_bins", PyInt 10);
   ("sensor_range", PyFloat 6 0);
   ("sensor_span", two_math_pi);
   ("coef_inner_rew", PyFloat 0 0);
   ("dying_cost", PyInt 0)].

Definition param_names : list string := map fst init_params.

Fixpoint keys_distinct (kw : list (string * pyval)) : bool :=
  match kw with
  | [] => true
  | (k, _) :: kw' => negb (mem k (map fst kw')) && keys_distinct kw'
  end.

(** Binding of the named parameters: a positional argument fills the next
    parameter (a keyword for the same parameter is then a [TypeError]); a
    parameter with no positional argument takes its keyword, or else its
    default. *)
Fixpoint bind_named (params : list (string * pyval)) (pos : list pyval)
    (kw : list (string * pyval)) : result (list (string * pyval)) :=
  match params with
  | [] => Ok []
  | (name, dflt) :: params' =>
      match pos with
      | v :: pos' =>
          if mem name (map fst kw)
          then Raise (TypeError "__init__() got multiple values for argument")
          else match bind_named params' pos' kw with
               | Ok rest => Ok ((name, v) :: rest)
               | Raise e => Raise e
               end
      | [] =>
          let v := match assoc name kw with Some v => v | None => dflt end in
          match bind_named params' [] kw with
          | Ok rest => Ok ((name, v) :: rest)
          | Raise e => Raise e
          end
      end
  end.

(** [*args]: the positional arguments beyond the named parameters. *)
Definition star_args (c : call) : list pyval :=
  skipn (List.length init_params) (positional c).

(** [**kwargs]: the keywords that name no parameter. *)
Definition star_kwargs (c : call) : list (string * pyval) :=
  filter (fun kv => negb (mem (fst kv) param_names)) (keywords c).

(** The arguments of the call
    [super(AntGatherEnv, self).__init__(n_apples=n_apples, ..., *args, **kwargs)]. *)
Definition super_init_call (c : call) : result call :=
  if negb (keys_distinct (keywords c))
  then Raise (TypeError "keyword argument repeated")
  else if mem "self" (map fst (keywords c))
  then Raise (TypeError "__init__() got multiple values for argument 'self'")
  else match bind_named init_params (positional c) (keywords c) with
       | Ok named =>
           Ok {| positional := star_args c;
                 keywords := named ++ star_kwargs c |}
       | Raise e => Raise e
       end.

(** [n == h] for an integer [n] and a class constant [h]. *)
Definition py_eq (n : Z) (h : cval) : bool :=
  match h with
  | CInt m => n =? m
  | CModel _ => false
  end.

Definition info := list (string * pyval).

Section Gather.

(** *** The base class [rllab.envs.mujoco.gather.gather_env.GatherEnv] *)

(** Everything the base class keeps on the instance. *)
Variable B : Type.
(** Elements of an observation vector, actions and rewards. *)
Variables elem Action Reward : Type.

(** The attribute [self.n_bins], set by the base constructor. *)
Variable n_bins : B -> Z.
(** The largest array dimension numpy builds on the platform. *)
Variable max_dim : Z.
(** The base property [robot_observation_space]; like the base methods it
    runs code of the base class, which may raise and may touch the state. *)
Variable robot_observation_space : class_consts -> B -> result Box * B.

(** The base methods.  They see the class constants through [self]; a
    call that raises returns the exception with the state as it left it. *)
Variable base_init : class_consts -> call -> result B.
Variable base_step :
  class_consts -> B -> Action -> result (list elem * Reward * bool * info) * B.
Variable base_reset : class_consts -> B -> bool -> result (list elem) * B.

(** *** The instance *)

Record Env := mkEnv {
  base : B;
  step_number : Z;
  current_context : option (list elem)
}.

(** *** Methods run on the instance and may raise *)

Definition M (A : Type) : Type := Env -> result A * Env.

Definition ret {A} (a : A) : M A := fun self => (Ok a, self).

Definition bind {A C} (m : M A) (f : A -> M C) : M C :=
  fun self =>
    match m self with
    | (Ok a, self') => f a self'
    | (Raise e, self') => (Raise e, self')
    end.

Definition raise {A} (e : exn) : M A := fun self => (Raise e, self).

(** A computation that does not touch the instance. *)
Definition lift {A} (r : result A) : M A := fun self => (r, self).

Notation "x <- m ;; f" := (bind m (fun x => f))
  (at level 61, m at next level, right associativity).
Notation "' pat <- m ;; f" := (bind m (fun x => match x with pat => f end))
  (at level 61, pat pattern, m at next level, right associativity).
Notation "m ;; f" := (bind m (fun _ => f))
  (at level 61, right associativity).

Definition get_step_number : M Z := fun self => (Ok (step_number self), self).

Definition set_step_number (n : Z) : M unit := fun self =>
  (Ok tt, {| base := base self; step_number := n;
             current_context := current_context self |}).

Definition set_current_context (ctx : list elem) : M unit := fun self =>
  (Ok tt, {| base := base self; step_number := step_number self;
             current_context := Some ctx |}).

Definition get_n_bins : M Z := fun self => (Ok (n_bins (base self)), self).

(** [super(AntGatherEnv, self).step(action)] *)
Definition super_step (k : class_consts) (action : Action)
  : M (list elem * Reward * bool * info) := fun self =>
  let (r, b') := base_step k (base self) action in
  (r, {| base := b'; step_number := step_number self;
         current_context := current_context self |}).

(** [super(AntGatherEnv, self).reset(also_wrapped)] *)
Definition super_reset (k : class_consts) (also_wrapped : bool)
  : M (list elem) := fun self =>
  let (r, b') := base_reset k (base self) also_wrapped in
  (r, {| base := b'; step_number := step_number self;
         current_context := current_context self |}).

(** *** The body of [AntGatherEnv] *)

Definition AntGatherEnv_init (k : class_consts) (c : call) : result Env :=
  match super_init_call c with
  | Raise e => Raise e
  | Ok c' =>
      match base_init k c' with
      | Raise e => Raise e
      | Ok b => Ok {| base := b; step_number := 0; current_context := None |}
      end
  end.

Definition AntGatherEnv_horizon (k : class_consts) : M cval :=
  match HORIZON k with
  | Some h => ret h
  | None => raise (AttributeError "HORIZON")
  end.

Definition AntGatherEnv_step (k : class_consts) (action : Action)
  : M (list elem * Reward * bool * info) :=
  '(obs, reward, done, _) <- super_step k action ;;
  n <- get_step_number ;;
  set_step_number (n + 1) ;;
  done <- (if done : bool then ret true
           else n <- get_step_number ;;
                h <- AntGatherEnv_horizon k ;;
                ret (py_eq n h)) ;;
  nb <- get_n_bins ;;
  set_current_context (slice_from obs (-2 * nb)) ;;
  nb <- get_n_bins ;;
  ret (slice_to obs (-2 * nb), reward, done, []).

Definition AntGatherEnv_reset (k : class_consts) (also_wrapped : bool)
  : M (list elem) :=
  set_step_number 0 ;;
  obs <- super_reset k also_wrapped ;;
  nb <- get_n_bins ;;
  set_current_context (slice_from obs (-2 * nb)) ;;
  nb <- get_n_bins ;;
  ret (slice_to obs (-2 * nb)).

Definition AntGatherEnv_observation_space (k : class_consts) : M Box :=
  fun self =>
    let (r, b') := robot_observation_space k (base self) in
    (r, {| base := b'; step_number := step_number self;
           current_context := current_context self |}).

Definition AntGatherEnv_context_space (k : class_consts) : M Box :=
  nb <- get_n_bins ;;
  lift (Box_init max_dim (float_neg float_inf) float_inf [2 * nb] np_float32).

(** *** Method lookup on an instance of class [c]

    [m_with c k] is the attribute [m] that the method resolution order of
    [c] finds, run on an instance whose class constants are [k]; the last
    branch of each lookup is the attribute of [GatherEnv] itself. *)

Definition init_with (c : cls) (k : class_consts) (args : call) : result Env :=
  match definer "__init__" (mro c) with
  | Some AntGatherEnv => AntGatherEnv_init k args
  | _ =>
      match base_init k args with
      | Raise e => Raise e
      | Ok b => Ok {| base := b; step_number := 0; current_context := None |}
      end
  end.

Definition step_with (c : cls) (k : class_consts) (action : Action)
  : M (list elem * Reward * bool * info) :=
  match definer "step" (mro c) with
  | Some AntGatherEnv => AntGatherEnv_step k action
  | _ => super_step k action
  end.

Definition reset_with (c : cls) (k : class_consts) (also_wrapped : bool)
  : M (list elem) :=
  match definer "reset" (mro c) with
  | Some AntGatherEnv => AntGatherEnv_reset k also_wrapped
  | _ => super_reset k also_wrapped
  end.

Definition horizon_with (c : cls) (k : class_consts) : M cval :=
  match definer "horizon" (mro c) with
  | Some AntGatherEnv => AntGatherEnv_horizon k
  | _ => raise (AttributeError "horizon")
  end.

Definition observation_space_with (c : cls) (k : class_consts) : M Box :=
  match definer "observation_space" (mro c) with
  | Some AntGatherEnv => AntGatherEnv_observation_space k
  | _ => raise (AttributeError "observation_space")
  end.

Definition context_space_with (c : cls) (k : class_consts) : M Box :=
  match definer "context_space" (mro c) with
  | Some AntGatherEnv => AntGatherEnv_context_space k
  | _ => raise (AttributeError "context_space")
  end.

(** The methods of an instance of [c]: the class constants are those the
    instance sees through its own class. *)

Definition init (c : cls) (args : call) : result Env :=
  init_with c (consts_of c) args.

Definition step (c : cls) (action : Action)
  : M (list elem * Reward * bool * info) :=
  step_with c (consts_of c) action.

Definition reset (c : cls) (also_wrapped : bool) : M (list elem) :=
  reset_with c (consts_of c) also_wrapped.

Definition horizon (c : cls) : M cval := horizon_with c (consts_of c).

Definition observation_space (c : cls) : M Box :=
  observation_space_with c (consts_of c).

Definition context_space (c : cls) : M Box :=
  context_space_with c (consts_of c).

(** [reset()] with the default [also_wrapped=True]. *)
Definition reset_default (c : cls) : M (list elem) := reset c true.

(** *** Sequences of calls on one instance *)

(** Consecutive calls to [step], one per action, up to the first that
    raises. *)
Fixpoint steps (c : cls) (actions : list Action)
  : M (list (list elem * Reward * bool * info)) :=
  match actions with
  | [] => ret []
  | a :: actions' =>
      out <- step c a ;;
      outs <- steps c actions' ;;
      ret (out :: outs)
  end.

(** What a caller can do with an instance. *)
Inductive op :=
| OpStep (a : Action)
| OpReset (also_wrapped : bool)
| OpHorizon
| OpObservationSpace
| OpContextSpace.

Definition is_reset (o : op) : bool :=
  match o with
  | OpReset _ => true
  | _ => false
  end.

(** The instance after one operation, whether it returned or raised. *)
Definition exec (c : cls) (o : op) (self : Env) : Env :=
  match o with
  | OpStep a => snd (step c a self)
  | OpReset w => snd (reset c w self)
  | OpHorizon => snd (horizon c self)
  | OpObservationSpace => snd (observation_space c self)
  | OpContextSpace => snd (context_space c self)
  end.

Definition exec_all (c : cls) (os : list op) (self : Env) : Env :=
  fold_left (fun s o => exec c o s) os self.

(** The base environment alone, driven by the same actions: consecutive
    calls to [GatherEnv.step] up to the first that raises. *)
Fixpoint base_steps (k : class_consts) (actions : list Action) (b : B)
  : result (list (list elem * Reward * bool * info)) * B :=
  match actions with
  | [] => (Ok [], b)
  | a :: actions' =>
      match base_step k b a with
      | (Ok out, b1) =>
          match base_steps k actions' b1 with
          | (Ok outs, b2) => (Ok (out :: outs), b2)
          | (Raise e, b2) => (Raise e, b2)
          end
      | (Raise e, b1) => (Raise e, b1)
      end
  end.

End Gather.

Arguments mkEnv {B elem} base step_number current_context.
Arguments base {B elem} e.
Arguments step_number {B elem} e.
Arguments current_context {B elem} e.
Arguments OpStep {Action} a.
Arguments OpReset {Action} also_wrapped.
Arguments OpHorizon {Action}.
Arguments OpObservationSpace {Action}.
Arguments OpContextSpace {Action}.
Arguments is_reset {Action} o.

(** ** A small base environment on which the methods can be run

    Its state is the number of bins, the observation vector it reports on
    every call and its [done] flag; the info dictionary it reports is not
    empty.  The constructor reads [n_bins] from its keywords. *)

Module Sample.

Record state := mkState {
  bins : Z;
  reading : list Z;
  finished : bool
}.

Definition n_bins (b : state) : Z := bins b.

Definition max_dim : Z := 2 ^ 63 - 1.

Definition robot_observation_space (k : class_consts) (b : state)
  : result Box * state :=
  (Box_init max_dim NegInf PosInf
     [Z.of_nat (List.length (reading b)) - 2 * bins b] np_float32,
   b).

Definition base_init (k : class_consts) (c : call) : result state :=
  match positional c with
  | [] =>
      match assoc "n_bins" (keywords c) with
      | Some (PyInt n) =>
          Ok {| bins := n;
                reading := repeat 0 (Z.to_nat (3 + 2 * n));
                finished := false |}
      | _ => Raise (TypeError "n_bins")
      end
  | _ :: _ => Raise (TypeError "__init__() got multiple values for argument")
  end.

Definition base_step (k : class_consts) (b : state) (a : unit)
  : result (list Z * Z * bool * info) * state :=
  (Ok (reading b, 1, finished b, [("outer_rew", PyInt 1)]), b).

Definition base_reset (k : class_consts) (b : state) (also_wrapped : bool)
  : result (list Z) * state :=
  (Ok (reading b), b).

Definition env (n : Z) (obs : list Z) (d : bool) (t : Z) : Env state Z :=
  {| base := {| bins := n; reading := obs; finished := d |};
     step_number := t;
     current_context := None |}.

Definition step := step state Z unit Z n_bins base_step.
Definition reset := reset state Z n_bins base_reset.
Definition steps := steps state Z unit Z n_bins base_step.
Definition init := init state Z base_init.
Definition context_space := context_space state Z n_bins max_dim.
Definition observation_space :=
  observation_space state Z robot_observation_space.
Definition horizon := horizon state Z.

End Sample.

(** ** A base environment that can fail

    The same state as the sample environment; a step with the action
    [false] raises after marking the state finished, and a reset with
    [also_wrapped = False] raises. *)

Module Faulty.

Definition base_step (k : class_consts) (b : Sample.state) (a : bool)
  : result (list Z * Z * bool * info) * Sample.state :=
  if a then (Ok (Sample.reading b, 1, Sample.finished b, []), b)
  else (Raise (BaseError "MujocoException"),
        {| Sample.bins := Sample.bins b;
           Sample.reading := Sample.reading b;
           Sample.finished := true |}).

Definition base_reset (k : class_consts) (b : Sample.state)
    (also_wrapped : bool) : result (list Z) * Sample.state :=
  if also_wrapped then (Ok (Sample.reading b), b)
  else (Raise (BaseError "reset"), b).

Definition step := step Sample.state Z bool Z Sample.n_bins base_step.
Definition reset := reset Sample.state Z Sample.n_bins base_reset.

End Faulty.

(** * Properties *)

(** ** Slices against the wording of the specification *)

Lemma slice_from_neg {A} (a : list A) (k : Z) :
  0 < k -> slice_from a (- k) = last_elements (Z.to_nat k) a.
Proof.
  intros Hk. unfold slice_from, last_elements, slice_bound.
  destruct (Z.ltb_spec (- k) 0) as [_ | Hn]; [| lia].
  f_equal. lia.
Qed.

Lemma slice_to_neg {A} (a : list A) (k : Z) :
  0 < k -> slice_to a (- k) = without_last (Z.to_nat k) a.
Proof.
  intros Hk. unfold slice_to, without_last, slice_bound.
  destruct (Z.ltb_spec (- k) 0) as [_ | Hn]; [| lia].
  f_equal. lia.
Qed.

Lemma slice_zero {A} (a : list A) :
  slice_from a 0 = a /\ slice_to a 0 = [].
Proof.
  unfold slice_from, slice_to, slice_bound. simpl.
  rewrite Z.min_l by lia. split; reflexivity.
Qed.

Lemma slice_split {A} (a : list A) (i : Z) :
  (slice_to a i ++ slice_from a i)%list = a.
Proof. apply firstn_skipn. Qed.

Lemma last_elements_length {A} (a : list A) (k : nat) :
  (k <= List.length a)%nat -> List.length (last_elements k a) = k.
Proof. intros H. unfold last_elements. rewrite length_skipn. lia. Qed.

(** ** Method resolution *)

Lemma definer_ant (c : cls) (name : string) :
  In name (own_methods AntGatherEnv) ->
  definer name (mro c) = Some AntGatherEnv.
Proof.
  intros H. simpl in H.
  destruct H as [<- | [<- | [<- | [<- | [<- | [<- | []]]]]]];
    destruct c; reflexivity.
Qed.

Lemma horizon_const (c : cls) :
  exists h, HORIZON (consts_of c) = Some (CInt h) /\ 0 < h.
Proof.
  destruct c; [exists 500 | exists 500 | exists 800]; split; reflexivity.
Qed.

(** ** Association lists and argument binding *)

Lemma mem_In (k : string) (l : list string) : mem k l = true <-> In k l.
Proof.
  induction l as [| k' l IH]; simpl.
  - split; [discriminate | tauto].
  - rewrite orb_true_iff, IH, String.eqb_eq. split; intros [H | H]; auto.
Qed.

Lemma assoc_not_mem {V} (k : string) (l : list (string * V)) :
  mem k (map fst l) = false -> assoc k l = None.
Proof.
  induction l as [| [k' v] l IH]; simpl; [reflexivity |].
  intros H. apply orb_false_iff in H as [H1 H2]. rewrite H1. auto.
Qed.

Lemma assoc_app {V} (k : string) (l1 l2 : list (string * V)) :
  assoc k (l1 ++ l2)
  = match assoc k l1 with Some v => Some v | None => assoc k l2 end.
Proof.
  induction l1 as [| [k' v] l1 IH]; simpl; [reflexivity |].
  destruct (String.eqb k k'); auto.
Qed.

Lemma assoc_filter {V} (f : string -> bool) (k : string)
    (l : list (string * V)) :
  assoc k (filter (fun kv => f (fst kv)) l)
  = if f k then assoc k l else None.
Proof.
  induction l as [| [k' v] l IH]; simpl.
  - destruct (f k); reflexivity.
  - destruct (f k') eqn:Hf; simpl.
    + destruct (String.eqb_spec k k') as [-> | Hne].
      * rewrite Hf. reflexivity.
      * exact IH.
    + destruct (String.eqb_spec k k') as [-> | Hne].
      * rewrite IH, Hf. reflexivity.
      * exact IH.
Qed.

Lemma assoc_nth {V} (l : list (string * V)) : forall i k v,
  NoDup (map fst l) ->
  nth_error l i = Some (k, v) ->
  assoc k l = Some v.
Proof.
  induction l as [| [k0 v0] l IH]; intros i k v Hnd Hn.
  - destruct i; discriminate.
  - simpl in Hnd. inversion Hnd as [| ? ? Hnot Hnd']; subst.
    destruct i as [| j]; simpl in *.
    + inversion Hn; subst. rewrite String.eqb_refl. reflexivity.
    + destruct (String.eqb_spec k k0) as [-> | Hne].
      * exfalso. apply Hnot. apply nth_error_In in Hn.
        change k0 with (fst (k0, v)). apply in_map. exact Hn.
      * eapply IH; eauto.
Qed.

Lemma bind_named_keys params : forall pos kw named,
  bind_named params pos kw = Ok named ->
  map fst named = map fst params.
Proof.
  induction params as [| [name dflt] params IH]; intros pos kw named H.
  - inversion H. reflexivity.
  - simpl in H. destruct pos as [| v pos].
    + destruct (bind_named params [] kw) as [rest | e] eqn:Hr; [| discriminate].
      inversion H. simpl. f_equal. eauto.
    + destruct (mem name (map fst kw)); [discriminate |].
      destruct (bind_named params pos kw) as [rest | e] eqn:Hr;
        [| discriminate].
      inversion H. simpl. f_equal. eauto.
Qed.

(** The value bound to the [i]-th parameter [name]: the [i]-th positional
    argument, else the keyword [name], else the default. *)
Lemma bind_named_nth params : forall pos kw named i name dflt,
  bind_named params pos kw = Ok named ->
  nth_error params i = Some (name, dflt) ->
  nth_error named i
  = Some (name,
          match nth_error pos i with
          | Some v => v
          | None => match assoc name kw with Some v => v | None => dflt end
          end).
Proof.
  induction params as [| [name0 dflt0] params IH];
    intros pos kw named i name dflt H Hn.
  - destruct i; discriminate.
  - simpl in H. destruct pos as [| v pos].
    + destruct (bind_named params [] kw) as [rest | e] eqn:Hr; [| discriminate].
      inversion H; subst named. destruct i as [| j]; simpl in *.
      * inversion Hn; subst. reflexivity.
      * rewrite (IH _ _ _ _ _ _ Hr Hn). destruct j; reflexivity.
    + destruct (mem name0 (map fst kw)); [discriminate |].
      destruct (bind_named params pos kw) as [rest | e] eqn:Hr;
        [| discriminate].
      inversion H; subst named. destruct i as [| j]; simpl in *.
      * inversion Hn; subst. reflexivity.
      * exact (IH _ _ _ _ _ _ Hr Hn).
Qed.

(** Binding succeeds unless a parameter is given both positionally and by
    keyword. *)
Lemma bind_named_returns params : forall pos kw,
  (forall name,
      In name (map fst (firstn (List.length pos) params)) ->
      mem name (map fst kw) = false) ->
  exists named, bind_named params pos kw = Ok named.
Proof.
  induction params as [| [name0 dflt0] params IH]; intros pos kw H.
  - exists []. reflexivity.
  - simpl. destruct pos as [| v pos].
    + destruct (IH [] kw) as [rest Hr]; [intros name []; fail |].
      rewrite Hr. eexists. reflexivity.
    + rewrite (H name0) by (simpl; auto).
      destruct (IH pos kw) as [rest Hr].
      { intros name Hin. apply H. simpl. auto. }
      rewrite Hr. eexists. reflexivity.
Qed.

Lemma super_init_call_returns (c : call) :
  keys_distinct (keywords c) = true ->
  mem "self" (map fst (keywords c)) = false ->
  (forall name,
      In name (firstn (List.length (positional c)) param_names) ->
      mem name (map fst (keywords c)) = false) ->
  exists fwd, super_init_call c = Ok fwd.
Proof.
  intros Hd Hs Hp. unfold super_init_call. rewrite Hd, Hs. simpl negb. cbv iota.
  destruct (bind_named_returns init_params (positional c) (keywords c))
    as [named Hn].
  { intros name Hin. apply Hp. unfold param_names.
    rewrite firstn_map. exact Hin. }
  rewrite Hn. eexists. reflexivity.
Qed.

Lemma param_names_distinct : NoDup param_names.
Proof.
  unfold param_names. simpl.
  repeat (constructor; [simpl; intros H;
    repeat (destruct H as [H | H]; [discriminate |]); exact H |]).
  constructor.
Qed.

(** ** Slices with a non-negative bound, and the sizes of the two parts *)

Lemma slice_nonneg {A} (a : list A) (i : Z) :
  0 <= i ->
  slice_to a i = firstn (Z.to_nat i) a
  /\ slice_from a i = skipn (Z.to_nat i) a.
Proof.
  intros Hi. unfold slice_to, slice_from, slice_bound.
  destruct (Z.ltb_spec i 0) as [Hn | _]; [lia |].
  destruct (Z.le_gt_cases i (Z.of_nat (List.length a))) as [Hle | Hgt].
  - rewrite Z.min_l by lia. split; reflexivity.
  - rewrite Z.min_r by lia. rewrite Nat2Z.id.
    rewrite firstn_all, skipn_all.
    rewrite firstn_all2, skipn_all2 by lia. split; reflexivity.
Qed.

Lemma slice_neg_lengths {A} (a : list A) (k : Z) :
  0 < k ->
  Z.of_nat (List.length (slice_to a (- k)))
  = Z.max (Z.of_nat (List.length a) - k) 0
  /\ Z.of_nat (List.length (slice_from a (- k)))
     = Z.min k (Z.of_nat (List.length a)).
Proof.
  intros Hk. unfold slice_to, slice_from, slice_bound.
  destruct (Z.ltb_spec (- k) 0) as [_ | Hn]; [| lia].
  rewrite length_firstn, length_skipn. lia.
Qed.

Lemma slice_neg_short {A} (a : list A) (k : Z) :
  0 < k -> Z.of_nat (List.length a) <= k ->
  slice_to a (- k) = [] /\ slice_from a (- k) = a.
Proof.
  intros Hk Hlen. unfold slice_to, slice_from, slice_bound.
  destruct (Z.ltb_spec (- k) 0) as [_ | Hn]; [| lia].
  rewrite Z.max_r by lia. split; reflexivity.
Qed.

(** ** Well-formed keyword lists *)

Lemma keys_distinct_keys (l1 l2 : list (string * pyval)) :
  map fst l1 = map fst l2 -> keys_distinct l1 = keys_distinct l2.
Proof.
  revert l2. induction l1 as [| [k1 v1] l1 IH]; intros [| [k2 v2] l2] H;
    simpl in *; try discriminate; [reflexivity |].
  inversion H; subst. rewrite (IH l2) by assumption.
  match goal with Heq : map fst l1 = _ |- _ => rewrite Heq end.
  reflexivity.
Qed.

Lemma mem_app (k : string) (l1 l2 : list string) :
  mem k (l1 ++ l2) = mem k l1 || mem k l2.
Proof.
  induction l1 as [| k' l1 IH]; simpl; [reflexivity |].
  rewrite IH. apply orb_assoc.
Qed.

Lemma mem_filter_keys (f : string -> bool) (k : string)
    (l : list (string * pyval)) :
  mem k (map fst (filter (fun kv => f (fst kv)) l))
  = f k && mem k (map fst l).
Proof.
  induction l as [| [k' v] l IH]; simpl.
  - rewrite andb_false_r. reflexivity.
  - destruct (f k') eqn:Hf; simpl; rewrite IH.
    + destruct (String.eqb_spec k k') as [-> | Hne]; simpl.
      * rewrite Hf. reflexivity.
      * reflexivity.
    + destruct (String.eqb_spec k k') as [-> | Hne]; simpl.
      * rewrite Hf. reflexivity.
      * reflexivity.
Qed.

Lemma keys_distinct_filter (f : string -> bool) (l : list (string * pyval)) :
  keys_distinct l = true ->
  keys_distinct (filter (fun kv => f (fst kv)) l) = true.
Proof.
  induction l as [| [k v] l IH]; simpl; [reflexivity |].
  intros H. apply andb_true_iff in H as [Hk Hl].
  destruct (f k) eqn:Hf; simpl; [| auto].
  rewrite (IH Hl), andb_true_r.
  rewrite mem_filter_keys. apply negb_true_iff in Hk. rewrite Hk.
  rewrite andb_false_r. reflexivity.
Qed.

Lemma keys_distinct_app (l1 l2 : list (string * pyval)) :
  keys_distinct l1 = true ->
  keys_distinct l2 = true ->
  (forall k, mem k (map fst l1) = true -> mem k (map fst l2) = false) ->
  keys_distinct (l1 ++ l2) = true.
Proof.
  induction l1 as [| [k v] l1 IH]; simpl; intros H1 H2 Hd; [exact H2 |].
  apply andb_true_iff in H1 as [Hk Hl].
  apply andb_true_iff. split.
  - rewrite map_app, mem_app. apply negb_true_iff in Hk. rewrite Hk.
    simpl. rewrite (Hd k) by (rewrite String.eqb_refl; reflexivity).
    reflexivity.
  - apply IH; auto. intros k' Hk'. apply Hd. rewrite Hk'. apply orb_true_r.
Qed.

(** A parameter given both positionally and by keyword is a [TypeError]. *)
Lemma bind_named_twice params : forall pos kw i name dflt,
  nth_error params i = Some (name, dflt) ->
  (i < List.length pos)%nat ->
  mem name (map fst kw) = true ->
  exists msg, bind_named params pos kw = Raise (TypeError msg).
Proof.
  induction params as [| [name0 dflt0] params IH];
    intros pos kw i name dflt Hn Hi Hm.
  - destruct i; discriminate.
  - destruct pos as [| v pos]; [simpl in Hi; lia |].
    simpl. destruct i as [| j]; simpl in Hn.
    + inversion Hn; subst. rewrite Hm. eexists. reflexivity.
    + destruct (mem name0 (map fst kw)); [eexists; reflexivity |].
      simpl in Hi.
      destruct (IH pos kw j name dflt Hn ltac:(lia) Hm) as [msg Hr].
      rewrite Hr. eexists. reflexivity.
Qed.

Example sample_step :
  Sample.step AntGatherEnv tt (Sample.env 1 [5; 6; 7; 8] false 0)
  = (Ok ([5; 6], 1, false, []),
     {| base := Sample.mkState 1 [5; 6; 7; 8] false;
        step_number := 1;
        current_context := Some [7; 8] |}).
Proof. reflexivity. Qed.

Section GatherProperties.

Variable B : Type.
Variables elem Action Reward : Type.
Variable n_bins : B -> Z.
Variable max_dim : Z.
Variable robot_observation_space : class_consts -> B -> result Box * B.
Variable base_init : class_consts -> call -> result B.
Variable base_step :
  class_consts -> B -> Action -> result (list elem * Reward * bool * info) * B.
Variable base_reset : class_consts -> B -> bool -> result (list elem) * B.

Local Abbreviation step' := (step B elem Action Reward n_bins base_step).
Local Abbreviation reset' := (reset B elem n_bins base_reset).
Local Abbreviation init' := (init B elem base_init).
Local Abbreviation horizon' := (horizon B elem).
Local Abbreviation observation_space' :=
  (observation_space B elem robot_observation_space).
Local Abbreviation context_space' := (context_space B elem n_bins max_dim).
Local Abbreviation steps' := (steps B elem Action Reward n_bins base_step).
Local Abbreviation exec' :=
  (exec B elem Action Reward n_bins max_dim robot_observation_space base_step
     base_reset).
Local Abbreviation exec_all' :=
  (exec_all B elem Action Reward n_bins max_dim robot_observation_space
     base_step
     base_reset).

(** *** What one call does, in terms of the base call *)

Lemma step_returns c a (self : Env B elem) raw r d0 i b' h :
  base_step (consts_of c) (base self) a = (Ok (raw, r, d0, i), b') ->
  HORIZON (consts_of c) = Some (CInt h) ->
  step' c a self
  = (Ok (slice_to raw (-2 * n_bins b'), r,
         d0 || (step_number self + 1 =? h), []),
     {| base := b';
        step_number := step_number self + 1;
        current_context := Some (slice_from raw (-2 * n_bins b')) |}).
Proof.
  intros Hb Hh. unfold step, step_with.
  rewrite (definer_ant c "step") by (simpl; auto).
  unfold AntGatherEnv_step, bind, super_step. rewrite Hb. simpl.
  destruct d0; simpl; [reflexivity |].
  unfold AntGatherEnv_horizon. rewrite Hh. reflexivity.
Qed.

Lemma step_raises c a (self : Env B elem) e b' :
  base_step (consts_of c) (base self) a = (Raise e, b') ->
  step' c a self
  = (Raise e,
     {| base := b';
        step_number := step_number self;
        current_context := current_context self |}).
Proof.
  intros Hb. unfold step, step_with.
  rewrite (definer_ant c "step") by (simpl; auto).
  unfold AntGatherEnv_step, bind, super_step. rewrite Hb. reflexivity.
Qed.

Lemma reset_returns c w (self : Env B elem) raw b' :
  base_reset (consts_of c) (base self) w = (Ok raw, b') ->
  reset' c w self
  = (Ok (slice_to raw (-2 * n_bins b')),
     {| base := b';
        step_number := 0;
        current_context := Some (slice_from raw (-2 * n_bins b')) |}).
Proof.
  intros Hb. unfold reset, reset_with.
  rewrite (definer_ant c "reset") by (simpl; auto).
  unfold AntGatherEnv_reset, bind, super_reset. simpl. rewrite Hb.
  reflexivity.
Qed.

Lemma reset_raises c w (self : Env B elem) e b' :
  base_reset (consts_of c) (base self) w = (Raise e, b') ->
  reset' c w self
  = (Raise e,
     {| base := b';
        step_number := 0;
        current_context := current_context self |}).
Proof.
  intros Hb. unfold reset, reset_with.
  rewrite (definer_ant c "reset") by (simpl; auto).
  unfold AntGatherEnv_reset, bind, super_reset. simpl. rewrite Hb.
  reflexivity.
Qed.

Lemma reset_step_number c w (self : Env B elem) :
  step_number (snd (reset' c w self)) = 0.
Proof.
  destruct (base_reset (consts_of c) (base self) w) as [[raw | e] b'] eqn:Hb.
  - rewrite (reset_returns _ _ _ _ _ Hb). reflexivity.
  - rewrite (reset_raises _ _ _ _ _ Hb). reflexivity.
Qed.

Lemma step_step_number c a (self self' : Env B elem) out :
  step' c a self = (Ok out, self') ->
  step_number self' = step_number self + 1.
Proof.
  intros Hs.
  destruct (horizon_const c) as [h [Hh _]].
  destruct (base_step (consts_of c) (base self) a)
    as [[[[[raw r] d0] i] | e] b'] eqn:Hb.
  - rewrite (step_returns _ _ _ _ _ _ _ _ _ Hb Hh) in Hs.
    inversion Hs. reflexivity.
  - rewrite (step_raises _ _ _ _ _ Hb) in Hs. discriminate.
Qed.

Lemma steps_step_number c actions : forall (self self' : Env B elem) outs,
  steps' c actions self = (Ok outs, self') ->
  step_number self' = step_number self + Z.of_nat (List.length actions).
Proof.
  induction actions as [| a actions IH]; intros self self' outs Hs.
  - inversion Hs. simpl. lia.
  - simpl in Hs. unfold bind in Hs.
    destruct (step' c a self) as [[out | e] self1] eqn:H1; [| discriminate].
    destruct (steps' c actions self1) as [[outs1 | e] self2] eqn:H2;
      [| discriminate].
    inversion Hs; subst self2.
    rewrite (IH _ _ _ H2), (step_step_number _ _ _ _ _ H1).
    rewrite length_cons. lia.
Qed.

(** X13: when the instance has at least one bin, the observation that
    [step] and [reset] return is the observation of the base class with
    its last [2 * n_bins] elements removed, and [current_context] is set
    to exactly those last [2 * n_bins] elements. *)
Theorem split_with_bins c a w (self : Env B elem) raw r d0 i b1 raw' b2 :
  base_step (consts_of c) (base self) a = (Ok (raw, r, d0, i), b1) ->
  base_reset (consts_of c) (base self) w = (Ok raw', b2) ->
  1 <= n_bins b1 ->
  1 <= n_bins b2 ->
  (exists d self',
      step' c a self
      = (Ok (without_last (Z.to_nat (2 * n_bins b1)) raw, r, d, []), self')
      /\ current_context self'
         = Some (last_elements (Z.to_nat (2 * n_bins b1)) raw))
  /\ (exists self',
      reset' c w self
      = (Ok (without_last (Z.to_nat (2 * n_bins b2)) raw'), self')
      /\ current_context self'
         = Some (last_elements (Z.to_nat (2 * n_bins b2)) raw')).
Proof.
  intros Hs Hr H1 H2.
  destruct (horizon_const c) as [h [Hh _]].
  split.
  - rewrite (step_returns _ _ _ _ _ _ _ _ _ Hs Hh).
    replace (-2 * n_bins b1) with (- (2 * n_bins b1)) by lia.
    rewrite slice_to_neg, slice_from_neg by lia.
    eexists. eexists. split; reflexivity.
  - rewrite (reset_returns _ _ _ _ _ Hr).
    replace (-2 * n_bins b2) with (- (2 * n_bins b2)) by lia.
    rewrite slice_to_neg, slice_from_neg by lia.
    eexists. split; reflexivity.
Qed.

(** C1: the claim asks [step] and [reset] to return the base observation
    without its last [2 * n_bins] elements and to store those elements as
    [current_context].  On an instance with [n_bins = 0] the bound of both
    slices is [-0 = 0], and the two parts come out the other way round:
    the returned observation is empty and [current_context] is the whole
    base observation, where the claim asks for the whole observation and
    an empty context. *)
Theorem C1_split_swapped_without_bins c a w (self : Env B elem)
    raw r d0 i b1 raw' b2 :
  base_step (consts_of c) (base self) a = (Ok (raw, r, d0, i), b1) ->
  base_reset (consts_of c) (base self) w = (Ok raw', b2) ->
  n_bins b1 = 0 ->
  n_bins b2 = 0 ->
  raw <> [] ->
  raw' <> [] ->
  (exists d self',
      step' c a self = (Ok ([], r, d, []), self')
      /\ current_context self' = Some raw
      /\ without_last (Z.to_nat (2 * n_bins b1)) raw = raw
      /\ last_elements (Z.to_nat (2 * n_bins b1)) raw = []
      /\ [] <> without_last (Z.to_nat (2 * n_bins b1)) raw
      /\ Some raw <> Some (last_elements (Z.to_nat (2 * n_bins b1)) raw))
  /\ (exists self',
      reset' c w self = (Ok [], self')
      /\ current_context self' = Some raw'
      /\ without_last (Z.to_nat (2 * n_bins b2)) raw' = raw'
      /\ last_elements (Z.to_nat (2 * n_bins b2)) raw' = []
      /\ [] <> without_last (Z.to_nat (2 * n_bins b2)) raw'
      /\ Some raw' <> Some (last_elements (Z.to_nat (2 * n_bins b2)) raw')).
Proof.
  intros Hs Hr H1 H2 Hne Hne'.
  destruct (horizon_const c) as [h [Hh _]].
  assert (Hspec : forall l : list elem,
    without_last (Z.to_nat (2 * 0)) l = l
    /\ last_elements (Z.to_nat (2 * 0)) l = []).
  { intros l. unfold without_last, last_elements. simpl.
    rewrite Nat.sub_0_r, firstn_all, skipn_all. split; reflexivity. }
  split.
  - rewrite (step_returns _ _ _ _ _ _ _ _ _ Hs Hh). rewrite H1.
    change (-2 * 0) with 0.
    destruct (slice_zero raw) as [-> ->].
    destruct (Hspec raw) as [-> ->].
    do 2 eexists. repeat split; try reflexivity.
    + intros E. apply Hne. symmetry. exact E.
    + intros E. inversion E. apply Hne. assumption.
  - rewrite (reset_returns _ _ _ _ _ Hr). rewrite H2.
    change (-2 * 0) with 0.
    destruct (slice_zero raw') as [-> ->].
    destruct (Hspec raw') as [-> ->].
    eexists. repeat split; try reflexivity.
    + intros E. apply Hne'. symmetry. exact E.
    + intros E. inversion E. apply Hne'. assumption.
Qed.

(** C2: the call to [step] that brings [step_number] to the value of the
    [horizon] property, that is the [horizon]-th call since the last
    [reset], returns [done = True] whatever the base class reported. *)
Theorem C2_done_at_horizon c h w (self0 self1 self2 : Env B elem)
    o pre outs a raw r d0 i b' :
  horizon' c self1 = (Ok (CInt h), self1) ->
  reset' c w self0 = (Ok o, self1) ->
  steps' c pre self1 = (Ok outs, self2) ->
  Z.of_nat (List.length pre) + 1 = h ->
  base_step (consts_of c) (base self2) a = (Ok (raw, r, d0, i), b') ->
  exists obs self3,
    step' c a self2 = (Ok (obs, r, true, []), self3)
    /\ step_number self3 = h.
Proof.
  intros Hh Hr Hpre Hlen Hb.
  assert (Hc : HORIZON (consts_of c) = Some (CInt h)).
  { destruct c; unfold horizon, horizon_with in Hh; simpl in Hh;
      inversion Hh; reflexivity. }
  assert (H0 : step_number self1 = 0).
  { pose proof (reset_step_number c w self0) as H. rewrite Hr in H. exact H. }
  pose proof (steps_step_number _ _ _ _ _ Hpre) as Hn.
  rewrite (step_returns _ _ _ _ _ _ _ _ _ Hb Hc).
  replace (step_number self2 + 1 =? h) with true
    by (symmetry; apply Z.eqb_eq; lia).
  rewrite orb_true_r.
  eexists. eexists. split; [reflexivity |]. simpl. lia.
Qed.

(** C3: after any call to [reset], [step_number] is zero. *)
Theorem C3_reset_zeroes_step_number c w (self : Env B elem) :
  step_number (snd (reset' c w self)) = 0
  /\ forall raw b',
       base_reset (consts_of c) (base self) w = (Ok raw, b') ->
       exists obs self',
         reset' c w self = (Ok obs, self') /\ step_number self' = 0.
Proof.
  split; [apply reset_step_number |].
  intros raw b' Hb. rewrite (reset_returns _ _ _ _ _ Hb).
  eexists. eexists. split; reflexivity.
Qed.

(** C8: [step] changes [step_number] and [current_context] only: the rest
    of the instance is exactly as the delegated base-class call left it. *)
Theorem C8_step_frame c a (self : Env B elem) :
  base (snd (step' c a self))
  = snd (base_step (consts_of c) (base self) a).
Proof.
  destruct (horizon_const c) as [h [Hh _]].
  destruct (base_step (consts_of c) (base self) a)
    as [[[[[raw r] d0] i] | e] b'] eqn:Hb.
  - rewrite (step_returns _ _ _ _ _ _ _ _ _ Hb Hh). reflexivity.
  - rewrite (step_raises _ _ _ _ _ Hb). reflexivity.
Qed.

(** C9: the info dictionary that [step] returns is empty, whatever info
    dictionary the base class produced. *)
Theorem C9_info_empty c a (self : Env B elem) raw r d0 i b' :
  base_step (consts_of c) (base self) a = (Ok (raw, r, d0, i), b') ->
  exists obs d self', step' c a self = (Ok (obs, r, d, []), self').
Proof.
  intros Hb. destruct (horizon_const c) as [h [Hh _]].
  rewrite (step_returns _ _ _ _ _ _ _ _ _ Hb Hh).
  eexists. eexists. eexists. reflexivity.
Qed.

(** C10: the horizon contributes to [done] exactly when the incremented
    [step_number] equals the horizon; once [step_number] has reached the
    horizon, later calls return the [done] of the base class. *)
Theorem C10_horizon_exact c h a (self : Env B elem) raw r d0 i b' :
  horizon' c self = (Ok (CInt h), self) ->
  base_step (consts_of c) (base self) a = (Ok (raw, r, d0, i), b') ->
  exists obs d self',
    step' c a self = (Ok (obs, r, d, []), self')
    /\ d = d0 || (step_number self + 1 =? h)
    /\ (d = true <-> d0 = true \/ step_number self + 1 = h)
    /\ (h <= step_number self -> d = d0).
Proof.
  intros Hh Hb.
  assert (Hc : HORIZON (consts_of c) = Some (CInt h)).
  { destruct c; unfold horizon, horizon_with in Hh; simpl in Hh;
      inversion Hh; reflexivity. }
  rewrite (step_returns _ _ _ _ _ _ _ _ _ Hb Hc).
  eexists. eexists. eexists. split; [reflexivity |].
  split; [reflexivity |]. split.
  - rewrite orb_true_iff, Z.eqb_eq. reflexivity.
  - intros Hge. replace (step_number self + 1 =? h) with false
      by (symmetry; apply Z.eqb_neq; lia).
    apply orb_false_r.
Qed.

(** *** What the properties do *)

Lemma horizon_eval c (self : Env B elem) :
  horizon' c self
  = (Ok (CInt (match c with SnakeGatherEnv => 800 | _ => 500 end)), self).
Proof. destruct c; reflexivity. Qed.

Lemma observation_space_eval c (self : Env B elem) :
  observation_space' c self
  = (fst (robot_observation_space (consts_of c) (base self)),
     {| base := snd (robot_observation_space (consts_of c) (base self));
        step_number := step_number self;
        current_context := current_context self |}).
Proof.
  unfold observation_space, observation_space_with.
  rewrite (definer_ant c "observation_space") by (simpl; auto 7).
  unfold AntGatherEnv_observation_space.
  destruct (robot_observation_space (consts_of c) (base self)).
  reflexivity.
Qed.

Lemma context_space_eval c (self : Env B elem) :
  context_space' c self
  = (Box_init max_dim NegInf PosInf [2 * n_bins (base self)] np_float32,
     self).
Proof.
  unfold context_space, context_space_with.
  rewrite (definer_ant c "context_space") by (simpl; auto 7).
  reflexivity.
Qed.

Lemma Box_init_returns lo hi d dt :
  0 <= d <= max_dim ->
  Box_init max_dim lo hi [d] dt
  = Ok {| low := lo; high := hi; shape := [d]; box_dtype := dt |}.
Proof.
  intros [H0 H1]. unfold Box_init. simpl.
  destruct (Z.ltb_spec d 0); [lia |].
  destruct (Z.ltb_spec max_dim d); [lia |]. reflexivity.
Qed.

Lemma Box_init_raises lo hi d dt :
  d < 0 \/ max_dim < d ->
  exists msg, Box_init max_dim lo hi [d] dt = Raise (ValueError msg).
Proof.
  intros H. unfold Box_init. simpl.
  destruct (Z.ltb_spec d 0); simpl; [eexists; reflexivity |].
  destruct (Z.ltb_spec max_dim d); simpl; [eexists; reflexivity | lia].
Qed.

Lemma exec_not_reset c o (self : Env B elem) :
  is_reset o = false ->
  step_number self <= step_number (exec' c o self).
Proof.
  intros Ho. destruct o as [a | w | | |]; simpl in *; try discriminate.
  - destruct (horizon_const c) as [h [Hh _]].
    destruct (base_step (consts_of c) (base self) a)
      as [[[[[raw r] d0] i] | e] b'] eqn:Hb.
    + rewrite (step_returns _ _ _ _ _ _ _ _ _ Hb Hh). simpl. lia.
    + rewrite (step_raises _ _ _ _ _ Hb). simpl. lia.
  - rewrite horizon_eval. simpl. lia.
  - rewrite observation_space_eval. simpl. lia.
  - rewrite context_space_eval. simpl. lia.
Qed.

(** C4: [step_number] is zero after the constructor and after [reset], a
    call to [step] that returns adds exactly one to it, and no operation
    other than [reset] ever decreases it, so that it is non-decreasing
    along any sequence of operations without a [reset]. *)
Theorem C4_step_number_counter c :
  (forall args (self : Env B elem),
      init' c args = Ok self -> step_number self = 0)
  /\ (forall w (self : Env B elem),
      step_number (exec' c (OpReset w) self) = 0)
  /\ (forall a (self self' : Env B elem) out,
      step' c a self = (Ok out, self') ->
      step_number self' = step_number self + 1)
  /\ (forall o (self : Env B elem),
      is_reset o = false ->
      step_number self <= step_number (exec' c o self))
  /\ (forall os (self : Env B elem),
      forallb (fun o => negb (is_reset o)) os = true ->
      step_number self <= step_number (exec_all' c os self)).
Proof.
  split; [| split; [| split; [| split]]].
  - intros args self H. unfold init, init_with in H.
    rewrite (definer_ant c "__init__") in H by (simpl; auto).
    unfold AntGatherEnv_init in H.
    destruct (super_init_call args) as [fwd | e]; [| discriminate].
    destruct (base_init (consts_of c) fwd) as [b | e]; [| discriminate].
    inversion H. reflexivity.
  - intros w self. apply reset_step_number.
  - intros a self self' out. apply step_step_number.
  - intros o self. apply exec_not_reset.
  - intros os. unfold exec_all.
    induction os as [| o os IH]; intros self Hall; simpl; [lia |].
    simpl in Hall. apply andb_true_iff in Hall as [Ho Hos].
    apply negb_true_iff in Ho.
    pose proof (exec_not_reset c o self Ho) as H1.
    pose proof (IH (exec' c o self) Hos) as H2. lia.
Qed.

(** C5: [context_space] is the [float32] box of shape [(2 * n_bins,)]
    with bounds minus and plus infinity, but its length is not the number
    of elements in [current_context] on an instance with [n_bins = 0]:
    after a [step] whose base observation is not empty the space has
    length zero while [current_context] holds the whole base
    observation. *)
Theorem C5_context_space_length_mismatch c a (self : Env B elem)
    raw r d0 i b' :
  base_step (consts_of c) (base self) a = (Ok (raw, r, d0, i), b') ->
  n_bins b' = 0 ->
  raw <> [] ->
  0 <= max_dim ->
  exists out self',
    step' c a self = (Ok out, self')
    /\ current_context self' = Some raw
    /\ context_space' c self'
       = (Ok {| low := NegInf; high := PosInf; shape := [0];
                box_dtype := np_float32 |},
          self')
    /\ [0] <> [Z.of_nat (List.length raw)].
Proof.
  intros Hb Hz Hne Hmax.
  destruct (horizon_const c) as [h [Hh _]].
  rewrite (step_returns _ _ _ _ _ _ _ _ _ Hb Hh). rewrite Hz.
  change (-2 * 0) with 0.
  destruct (slice_zero raw) as [-> _].
  do 2 eexists. split; [reflexivity |]. split; [reflexivity |]. split.
  - rewrite context_space_eval. cbn [base]. rewrite Hz.
    change (2 * 0) with 0.
    rewrite Box_init_returns by lia. reflexivity.
  - intros E. inversion E as [E']. destruct raw; [apply Hne; reflexivity |].
    simpl in E'. lia.
Qed.

(** X14: when the instance has at least one bin, [2 * n_bins] is a
    dimension numpy accepts and the base observation has at least
    [2 * n_bins] elements, [context_space] after a [step] is the [float32]
    box with bounds minus and plus infinity whose length is the number of
    elements of [current_context], namely [2 * n_bins]. *)
Theorem context_space_matches_context c a (self : Env B elem)
    raw r d0 i b' :
  base_step (consts_of c) (base self) a = (Ok (raw, r, d0, i), b') ->
  1 <= n_bins b' ->
  2 * n_bins b' <= max_dim ->
  2 * n_bins b' <= Z.of_nat (List.length raw) ->
  exists out self' ctx,
    step' c a self = (Ok out, self')
    /\ current_context self' = Some ctx
    /\ Z.of_nat (List.length ctx) = 2 * n_bins b'
    /\ context_space' c self'
       = (Ok {| low := NegInf; high := PosInf;
                shape := [Z.of_nat (List.length ctx)];
                box_dtype := np_float32 |},
          self').
Proof.
  intros Hb H1 Hmax Hlen.
  destruct (horizon_const c) as [h [Hh _]].
  rewrite (step_returns _ _ _ _ _ _ _ _ _ Hb Hh).
  replace (-2 * n_bins b') with (- (2 * n_bins b')) by lia.
  rewrite slice_from_neg by lia.
  assert (Hl : Z.of_nat (List.length
                 (last_elements (Z.to_nat (2 * n_bins b')) raw))
               = 2 * n_bins b').
  { rewrite last_elements_length by lia. lia. }
  do 3 eexists. split; [reflexivity |]. split; [reflexivity |].
  split; [exact Hl |].
  rewrite context_space_eval. cbn [base]. rewrite Hl.
  rewrite Box_init_returns by lia. reflexivity.
Qed.

(** C6: the three classes resolve every method and property to the body
    of [AntGatherEnv]; the two subclasses define nothing but the constants
    [MODEL_CLASS], [ORI_IND] and [HORIZON]; and for any fixed values of
    those constants the constructor, [step], [reset] and the three
    properties of any two of the classes are equal. *)
Theorem C6_variants_differ_in_constants_only :
  (forall c,
      map (fun name => definer name (mro c)) (own_methods AntGatherEnv)
      = repeat (Some AntGatherEnv) 6)
  /\ own_methods SwimmerGatherEnv = []
  /\ own_methods SnakeGatherEnv = []
  /\ (forall c, map fst (own_consts c) = ["MODEL_CLASS"; "ORI_IND"; "HORIZON"])
  /\ consts_of AntGatherEnv
     = {| MODEL_CLASS := Some (CModel AntEnv);
          ORI_IND := Some (CInt 3); HORIZON := Some (CInt 500) |}
  /\ consts_of SwimmerGatherEnv
     = {| MODEL_CLASS := Some (CModel SwimmerEnv);
          ORI_IND := Some (CInt 2); HORIZON := Some (CInt 500) |}
  /\ consts_of SnakeGatherEnv
     = {| MODEL_CLASS := Some (CModel SnakeEnv);
          ORI_IND := Some (CInt 2); HORIZON := Some (CInt 800) |}
  /\ (forall c1 c2 k,
      init_with B elem base_init c1 k = init_with B elem base_init c2 k
      /\ step_with B elem Action Reward n_bins base_step c1 k
         = step_with B elem Action Reward n_bins base_step c2 k
      /\ reset_with B elem n_bins base_reset c1 k
         = reset_with B elem n_bins base_reset c2 k
      /\ horizon_with B elem c1 k = horizon_with B elem c2 k
      /\ observation_space_with B elem robot_observation_space c1 k
         = observation_space_with B elem robot_observation_space c2 k
      /\ context_space_with B elem n_bins max_dim c1 k
         = context_space_with B elem n_bins max_dim c2 k)
  /\ (forall c,
      init' c = init_with B elem base_init c (consts_of c)
      /\ step' c = step_with B elem Action Reward n_bins base_step c (consts_of c)
      /\ reset' c = reset_with B elem n_bins base_reset c (consts_of c)
      /\ horizon' c = horizon_with B elem c (consts_of c)
      /\ observation_space' c
         = observation_space_with B elem robot_observation_space c (consts_of c)
      /\ context_space' c = context_space_with B elem n_bins max_dim c (consts_of c)).
Proof.
  repeat split; try reflexivity;
    try (destruct c; reflexivity);
    destruct c1, c2; reflexivity.
Qed.

(** C7: the constructor hands the base-class constructor, under its own
    name, each of the ten named arguments with the value the caller
    supplied (positionally or by keyword) or else the default of the
    signature, followed by the extra positional and keyword arguments,
    none of them changed. *)
Theorem C7_constructor_forwards c (args fwd : call) :
  super_init_call args = Ok fwd ->
  (forall i name dflt,
      nth_error init_params i = Some (name, dflt) ->
      assoc name (keywords fwd)
      = Some (match nth_error (positional args) i with
              | Some v => v
              | None =>
                  match assoc name (keywords args) with
                  | Some v => v
                  | None => dflt
                  end
              end))
  /\ positional fwd = skipn 10 (positional args)
  /\ (forall k, mem k param_names = false ->
        assoc k (keywords fwd) = assoc k (keywords args))
  /\ init' c args
     = match base_init (consts_of c) fwd with
       | Ok b => Ok {| base := b; step_number := 0; current_context := None |}
       | Raise e => Raise e
       end.
Proof.
  intros H.
  assert (Hinit : init' c args
     = match base_init (consts_of c) fwd with
       | Ok b => Ok {| base := b; step_number := 0; current_context := None |}
       | Raise e => Raise e
       end).
  { unfold init, init_with.
    rewrite (definer_ant c "__init__") by (simpl; auto).
    unfold AntGatherEnv_init. rewrite H.
    destruct (base_init (consts_of c) fwd); reflexivity. }
  unfold super_init_call in H.
  destruct (negb (keys_distinct (keywords args))); [discriminate |].
  destruct (mem "self" (map fst (keywords args))); [discriminate |].
  destruct (bind_named init_params (positional args) (keywords args))
    as [named | e] eqn:Hb; [| discriminate].
  inversion H; subst fwd; clear H. simpl.
  pose proof (bind_named_keys _ _ _ _ Hb) as Hkeys.
  split; [| split; [| split]].
  - intros i name dflt Hn.
    pose proof (bind_named_nth _ _ _ _ _ _ _ Hb Hn) as Hv.
    rewrite assoc_app.
    rewrite (assoc_nth named i name _
               ltac:(rewrite Hkeys; apply param_names_distinct) Hv).
    reflexivity.
  - reflexivity.
  - intros k Hk. rewrite assoc_app.
    rewrite (assoc_not_mem k named) by (rewrite Hkeys; exact Hk).
    unfold star_kwargs.
    rewrite (assoc_filter (fun s => negb (mem s param_names))).
    simpl. rewrite Hk. reflexivity.
  - exact Hinit.
Qed.

(** *** Further properties of the wrapper *)

Local Abbreviation base_steps' := (base_steps B elem Action Reward base_step).

Lemma steps_follow_base c h actions : forall (self : Env B elem) bouts b',
  HORIZON (consts_of c) = Some (CInt h) ->
  base_steps' (consts_of c) actions (base self) = (Ok bouts, b') ->
  exists outs self',
    steps' c actions self = (Ok outs, self')
    /\ base self' = b'
    /\ step_number self' = step_number self + Z.of_nat (List.length actions)
    /\ List.length outs = List.length actions
    /\ List.length bouts = List.length actions
    /\ forall j raw r d0 inf,
         nth_error bouts j = Some (raw, r, d0, inf) ->
         exists obs ctx,
           nth_error outs j
           = Some (obs, r, d0 || (step_number self + Z.of_nat j + 1 =? h), [])
           /\ (obs ++ ctx)%list = raw.
Proof.
  induction actions as [| a actions IH]; intros self bouts b' Hh Hb.
  - simpl in Hb. inversion Hb; subst. exists [], self.
    repeat split; simpl; try lia.
    intros j raw r d0 inf Hj. destruct j; discriminate.
  - simpl in Hb.
    destruct (base_step (consts_of c) (base self) a)
      as [[[[[raw0 r0] d00] i0] | e] b1] eqn:H1; [| discriminate].
    destruct (base_steps' (consts_of c) actions b1)
      as [[bouts1 | e] b2] eqn:H2; [| discriminate].
    inversion Hb; subst bouts b2; clear Hb.
    pose proof (step_returns _ _ _ _ _ _ _ _ _ H1 Hh) as Hs.
    destruct (IH {| base := b1;
                    step_number := step_number self + 1;
                    current_context :=
                      Some (slice_from raw0 (-2 * n_bins b1)) |}
                 bouts1 b' Hh H2)
      as [outs1 [self' [Hr [Hbase [Hnum [Hlo [Hlb Hnth]]]]]]].
    eexists. exists self'. simpl. unfold bind. rewrite Hs, Hr.
    split; [reflexivity |]. split; [exact Hbase |].
    split; [simpl in Hnum; rewrite Hnum; lia |].
    split; [simpl; lia |]. split; [simpl; lia |].
    intros j raw r d0 inf Hj. destruct j as [| j]; simpl in Hj.
    + inversion Hj; subst. eexists. eexists.
      split; [| apply slice_split].
      cbn [nth_error].
      replace (step_number self + Z.of_nat 0 + 1) with (step_number self + 1)
        by lia.
      reflexivity.
    + destruct (Hnth j raw r d0 inf Hj) as [obs [ctx [Ho Hsplit]]].
      exists obs, ctx. split; [| exact Hsplit].
      cbn [nth_error]. rewrite Ho. cbn [step_number].
      replace (step_number self + 1 + Z.of_nat j + 1)
        with (step_number self + Z.of_nat (S j) + 1) by lia.
      reflexivity.
Qed.

(** X1: when the base [step] raises, [step] raises the same exception;
    [step_number] is not incremented and [current_context] is not
    touched, and the rest of the instance is as the base call left it. *)
Theorem step_propagates_exception c a (self : Env B elem) e b' :
  base_step (consts_of c) (base self) a = (Raise e, b') ->
  exists self',
    step' c a self = (Raise e, self')
    /\ base self' = b'
    /\ step_number self' = step_number self
    /\ current_context self' = current_context self.
Proof.
  intros Hb. rewrite (step_raises _ _ _ _ _ Hb).
  eexists. repeat split.
Qed.

(** X2: when the base [reset] raises, [reset] raises the same exception,
    but [step_number] has already been set to zero; [current_context]
    keeps its previous value. *)
Theorem reset_raises_after_zeroing c w (self : Env B elem) e b' :
  base_reset (consts_of c) (base self) w = (Raise e, b') ->
  exists self',
    reset' c w self = (Raise e, self')
    /\ base self' = b'
    /\ step_number self' = 0
    /\ current_context self' = current_context self.
Proof.
  intros Hb. rewrite (reset_raises _ _ _ _ _ Hb).
  eexists. repeat split.
Qed.

(** X3: whatever [n_bins] is, [step] and [reset] lose and duplicate
    nothing: the returned observation followed by [current_context] is the
    observation of the base class. *)
Theorem split_is_lossless c a w (self : Env B elem) raw r d0 i b1 raw' b2 :
  base_step (consts_of c) (base self) a = (Ok (raw, r, d0, i), b1) ->
  base_reset (consts_of c) (base self) w = (Ok raw', b2) ->
  (exists obs d ctx self',
      step' c a self = (Ok (obs, r, d, []), self')
      /\ current_context self' = Some ctx
      /\ (obs ++ ctx)%list = raw)
  /\ (exists obs ctx self',
      reset' c w self = (Ok obs, self')
      /\ current_context self' = Some ctx
      /\ (obs ++ ctx)%list = raw').
Proof.
  intros Hs Hr. destruct (horizon_const c) as [h [Hh _]]. split.
  - rewrite (step_returns _ _ _ _ _ _ _ _ _ Hs Hh).
    do 4 eexists. split; [reflexivity |]. split; [reflexivity |].
    apply slice_split.
  - rewrite (reset_returns _ _ _ _ _ Hr).
    do 3 eexists. split; [reflexivity |]. split; [reflexivity |].
    apply slice_split.
Qed.

(** X4: with [n_bins <= 0] the bound [-2 * n_bins] is not negative, so the
    returned observation is the first [-2 * n_bins] elements of the base
    observation and [current_context] is the rest; with [n_bins = 0] the
    returned observation is empty and [current_context] is the whole base
    observation. *)
Theorem split_without_bins c a w (self : Env B elem) raw r d0 i b1 raw' b2 :
  base_step (consts_of c) (base self) a = (Ok (raw, r, d0, i), b1) ->
  base_reset (consts_of c) (base self) w = (Ok raw', b2) ->
  n_bins b1 <= 0 ->
  n_bins b2 <= 0 ->
  (exists d self',
      step' c a self
      = (Ok (firstn (Z.to_nat (-2 * n_bins b1)) raw, r, d, []), self')
      /\ current_context self' = Some (skipn (Z.to_nat (-2 * n_bins b1)) raw)
      /\ (n_bins b1 = 0 ->
          step' c a self = (Ok ([], r, d, []), self')
          /\ current_context self' = Some raw))
  /\ (exists self',
      reset' c w self = (Ok (firstn (Z.to_nat (-2 * n_bins b2)) raw'), self')
      /\ current_context self' = Some (skipn (Z.to_nat (-2 * n_bins b2)) raw')
      /\ (n_bins b2 = 0 ->
          reset' c w self = (Ok [], self')
          /\ current_context self' = Some raw')).
Proof.
  intros Hs Hr H1 H2. destruct (horizon_const c) as [h [Hh _]]. split.
  - rewrite (step_returns _ _ _ _ _ _ _ _ _ Hs Hh).
    destruct (slice_nonneg raw (-2 * n_bins b1) ltac:(lia)) as [-> ->].
    do 2 eexists. split; [reflexivity |]. split; [reflexivity |].
    intros Hz. rewrite Hz. split; reflexivity.
  - rewrite (reset_returns _ _ _ _ _ Hr).
    destruct (slice_nonneg raw' (-2 * n_bins b2) ltac:(lia)) as [-> ->].
    eexists. split; [reflexivity |]. split; [reflexivity |].
    intros Hz. rewrite Hz. split; reflexivity.
Qed.

(** X5: when the base observation has no more than [2 * n_bins] elements
    (and [n_bins >= 1]), the returned observation is empty and
    [current_context] is the whole base observation. *)
Theorem split_of_short_observation c a w (self : Env B elem)
    raw r d0 i b1 raw' b2 :
  base_step (consts_of c) (base self) a = (Ok (raw, r, d0, i), b1) ->
  base_reset (consts_of c) (base self) w = (Ok raw', b2) ->
  1 <= n_bins b1 ->
  Z.of_nat (List.length raw) <= 2 * n_bins b1 ->
  1 <= n_bins b2 ->
  Z.of_nat (List.length raw') <= 2 * n_bins b2 ->
  (exists d self',
      step' c a self = (Ok ([], r, d, []), self')
      /\ current_context self' = Some raw)
  /\ (exists self',
      reset' c w self = (Ok [], self')
      /\ current_context self' = Some raw').
Proof.
  intros Hs Hr H1 L1 H2 L2. destruct (horizon_const c) as [h [Hh _]]. split.
  - rewrite (step_returns _ _ _ _ _ _ _ _ _ Hs Hh).
    replace (-2 * n_bins b1) with (- (2 * n_bins b1)) by lia.
    destruct (slice_neg_short raw (2 * n_bins b1) ltac:(lia) L1) as [-> ->].
    do 2 eexists. split; reflexivity.
  - rewrite (reset_returns _ _ _ _ _ Hr).
    replace (-2 * n_bins b2) with (- (2 * n_bins b2)) by lia.
    destruct (slice_neg_short raw' (2 * n_bins b2) ltac:(lia) L2) as [-> ->].
    eexists. split; reflexivity.
Qed.

(** X6: with [n_bins >= 1], [current_context] has [min(2 * n_bins, len)]
    elements and the returned observation has [max(len - 2 * n_bins, 0)],
    where [len] is the length of the base observation. *)
Theorem split_sizes c a w (self : Env B elem) raw r d0 i b1 raw' b2 :
  base_step (consts_of c) (base self) a = (Ok (raw, r, d0, i), b1) ->
  base_reset (consts_of c) (base self) w = (Ok raw', b2) ->
  1 <= n_bins b1 ->
  1 <= n_bins b2 ->
  (exists obs d ctx self',
      step' c a self = (Ok (obs, r, d, []), self')
      /\ current_context self' = Some ctx
      /\ Z.of_nat (List.length obs)
         = Z.max (Z.of_nat (List.length raw) - 2 * n_bins b1) 0
      /\ Z.of_nat (List.length ctx)
         = Z.min (2 * n_bins b1) (Z.of_nat (List.length raw)))
  /\ (exists obs ctx self',
      reset' c w self = (Ok obs, self')
      /\ current_context self' = Some ctx
      /\ Z.of_nat (List.length obs)
         = Z.max (Z.of_nat (List.length raw') - 2 * n_bins b2) 0
      /\ Z.of_nat (List.length ctx)
         = Z.min (2 * n_bins b2) (Z.of_nat (List.length raw'))).
Proof.
  intros Hs Hr H1 H2. destruct (horizon_const c) as [h [Hh _]]. split.
  - rewrite (step_returns _ _ _ _ _ _ _ _ _ Hs Hh).
    replace (-2 * n_bins b1) with (- (2 * n_bins b1)) by lia.
    do 4 eexists. split; [reflexivity |]. split; [reflexivity |].
    apply slice_neg_lengths. lia.
  - rewrite (reset_returns _ _ _ _ _ Hr).
    replace (-2 * n_bins b2) with (- (2 * n_bins b2)) by lia.
    do 3 eexists. split; [reflexivity |]. split; [reflexivity |].
    apply slice_neg_lengths. lia.
Qed.

(** X7: none of the three properties changes [step_number] or
    [current_context].  [horizon] never raises and is 500 for the ant and
    the swimmer and 800 for the snake.  [observation_space] returns or
    raises exactly what the [robot_observation_space] of the base class
    does.  [context_space] needs no earlier [reset]: it returns the box of
    shape [(2 * n_bins,)] when [0 <= 2 * n_bins <= max_dim] and raises
    [ValueError] otherwise, leaving the instance as it was. *)
Theorem descriptors_are_read_only c (self : Env B elem) :
  horizon' c self
  = (Ok (CInt (match c with SnakeGatherEnv => 800 | _ => 500 end)), self)
  /\ observation_space' c self
     = (fst (robot_observation_space (consts_of c) (base self)),
        {| base := snd (robot_observation_space (consts_of c) (base self));
           step_number := step_number self;
           current_context := current_context self |})
  /\ (0 <= 2 * n_bins (base self) <= max_dim ->
      context_space' c self
      = (Ok {| low := NegInf; high := PosInf;
               shape := [2 * n_bins (base self)]; box_dtype := np_float32 |},
         self))
  /\ (2 * n_bins (base self) < 0 \/ max_dim < 2 * n_bins (base self) ->
      exists msg, context_space' c self = (Raise (ValueError msg), self))
  /\ exec' c OpHorizon self = self
  /\ exec' c OpContextSpace self = self
  /\ step_number (exec' c OpObservationSpace self) = step_number self
  /\ current_context (exec' c OpObservationSpace self) = current_context self.
Proof.
  split; [apply horizon_eval |]. split; [apply observation_space_eval |].
  split; [| split; [| split; [| split; [| split]]]].
  - intros H. rewrite context_space_eval, Box_init_returns by exact H.
    reflexivity.
  - intros H. rewrite context_space_eval.
    destruct (Box_init_raises NegInf PosInf _ np_float32 H) as [msg ->].
    exists msg. reflexivity.
  - simpl. rewrite horizon_eval. reflexivity.
  - simpl. rewrite context_space_eval. reflexivity.
  - simpl. rewrite observation_space_eval. reflexivity.
  - simpl. rewrite observation_space_eval. reflexivity.
Qed.

(** X8: a run of [step] calls follows the base environment: whenever the
    base environment alone completes the actions, so does the wrapper, with
    the same final base state; [step_number] grows by the number of steps,
    and the [j]-th output carries the base reward, the empty info, the
    [done] flag [base_done or (step_number + j + 1 == HORIZON)] and an
    observation that is a prefix of the base observation. *)
Theorem run_follows_base c h actions (self : Env B elem) bouts b' :
  HORIZON (consts_of c) = Some (CInt h) ->
  base_steps' (consts_of c) actions (base self) = (Ok bouts, b') ->
  exists outs self',
    steps' c actions self = (Ok outs, self')
    /\ base self' = b'
    /\ step_number self' = step_number self + Z.of_nat (List.length actions)
    /\ List.length outs = List.length actions
    /\ List.length bouts = List.length actions
    /\ forall j raw r d0 inf,
         nth_error bouts j = Some (raw, r, d0, inf) ->
         exists obs ctx,
           nth_error outs j
           = Some (obs, r, d0 || (step_number self + Z.of_nat j + 1 =? h), [])
           /\ (obs ++ ctx)%list = raw.
Proof. apply steps_follow_base. Qed.

(** X9: [current_context] is [None] on a new instance, is set by every
    [reset] and [step] that returns, and once set is never [None] again,
    whatever operations follow and whether they return or raise. *)
Theorem current_context_lifecycle c :
  (forall args (self : Env B elem),
      init' c args = Ok self -> current_context self = None)
  /\ (forall w (self self' : Env B elem) obs,
      reset' c w self = (Ok obs, self') -> current_context self' <> None)
  /\ (forall a (self self' : Env B elem) out,
      step' c a self = (Ok out, self') -> current_context self' <> None)
  /\ (forall os (self : Env B elem),
      current_context self <> None ->
      current_context (exec_all' c os self) <> None).
Proof.
  destruct (horizon_const c) as [h [Hh _]].
  assert (Hreset : forall w (self self' : Env B elem) obs,
    reset' c w self = (Ok obs, self') -> current_context self' <> None).
  { intros w self self' obs H.
    destruct (base_reset (consts_of c) (base self) w) as [[raw | e] b'] eqn:Hb.
    - rewrite (reset_returns _ _ _ _ _ Hb) in H. inversion H. discriminate.
    - rewrite (reset_raises _ _ _ _ _ Hb) in H. discriminate. }
  assert (Hstep : forall a (self self' : Env B elem) out,
    step' c a self = (Ok out, self') -> current_context self' <> None).
  { intros a self self' out H.
    destruct (base_step (consts_of c) (base self) a)
      as [[[[[raw r] d0] i] | e] b'] eqn:Hb.
    - rewrite (step_returns _ _ _ _ _ _ _ _ _ Hb Hh) in H.
      inversion H. discriminate.
    - rewrite (step_raises _ _ _ _ _ Hb) in H. discriminate. }
  split; [| split; [exact Hreset | split; [exact Hstep |]]].
  - intros args self H. unfold init, init_with in H.
    rewrite (definer_ant c "__init__") in H by (simpl; auto).
    unfold AntGatherEnv_init in H.
    destruct (super_init_call args) as [fwd | e]; [| discriminate].
    destruct (base_init (consts_of c) fwd) as [b | e]; [| discriminate].
    inversion H. reflexivity.
  - intros os. unfold exec_all.
    induction os as [| o os IH]; intros self Hctx; simpl; [exact Hctx |].
    apply IH. destruct o as [a | w | | |]; simpl.
    + destruct (step' c a self) as [[out | e] self1] eqn:H1.
      * exact (Hstep _ _ _ _ H1).
      * destruct (base_step (consts_of c) (base self) a)
          as [[[[[raw r] d0] i] | e0] b'] eqn:Hb.
        -- rewrite (step_returns _ _ _ _ _ _ _ _ _ Hb Hh) in H1. discriminate.
        -- rewrite (step_raises _ _ _ _ _ Hb) in H1. inversion H1. exact Hctx.
    + destruct (reset' c w self) as [[obs | e] self1] eqn:H1.
      * exact (Hreset _ _ _ _ H1).
      * destruct (base_reset (consts_of c) (base self) w)
          as [[raw | e0] b'] eqn:Hb.
        -- rewrite (reset_returns _ _ _ _ _ Hb) in H1. discriminate.
        -- rewrite (reset_raises _ _ _ _ _ Hb) in H1. inversion H1. exact Hctx.
    + rewrite horizon_eval. exact Hctx.
    + rewrite observation_space_eval. exact Hctx.
    + rewrite context_space_eval. exact Hctx.
Qed.

(** X10: the keywords handed to the base constructor are the ten parameter
    names in the order of the signature followed by the caller's other
    keywords in the caller's order, and no name occurs twice. *)
Theorem forwarded_keywords_well_formed (args fwd : call) :
  super_init_call args = Ok fwd ->
  map fst (keywords fwd) = (param_names ++ map fst (star_kwargs args))%list
  /\ keys_distinct (keywords fwd) = true
  /\ star_kwargs args
     = filter (fun kv => negb (mem (fst kv) param_names)) (keywords args).
Proof.
  intros H. unfold super_init_call in H.
  destruct (keys_distinct (keywords args)) eqn:Hd; [| discriminate].
  cbn [negb] in H.
  destruct (mem "self" (map fst (keywords args))); [discriminate |].
  destruct (bind_named init_params (positional args) (keywords args))
    as [named | e] eqn:Hb; [| discriminate].
  inversion H; subst fwd; clear H. simpl.
  pose proof (bind_named_keys _ _ _ _ Hb) as Hkeys.
  split; [| split; [| reflexivity]].
  - rewrite map_app, Hkeys. reflexivity.
  - apply keys_distinct_app.
    + rewrite (keys_distinct_keys named init_params Hkeys). reflexivity.
    + unfold star_kwargs.
      apply (keys_distinct_filter (fun s => negb (mem s param_names))).
      exact Hd.
    + intros k Hk. rewrite Hkeys in Hk. unfold star_kwargs.
      rewrite (mem_filter_keys (fun s => negb (mem s param_names))).
      fold param_names in Hk. rewrite Hk. reflexivity.
Qed.

(** X11: a named parameter passed both positionally and by keyword makes
    the constructor raise [TypeError]; no instance is created. *)
Theorem init_rejects_double_binding c (args : call) i name :
  nth_error param_names i = Some name ->
  (i < List.length (positional args))%nat ->
  mem name (map fst (keywords args)) = true ->
  exists msg, init' c args = Raise (TypeError msg).
Proof.
  intros Hn Hi Hm. unfold init, init_with.
  rewrite (definer_ant c "__init__") by (simpl; auto).
  unfold AntGatherEnv_init, super_init_call.
  destruct (negb (keys_distinct (keywords args))); [eexists; reflexivity |].
  destruct (mem "self" (map fst (keywords args))); [eexists; reflexivity |].
  unfold param_names in Hn. rewrite nth_error_map in Hn.
  destruct (nth_error init_params i) as [[name' dflt] |] eqn:Hp;
    [| discriminate].
  simpl in Hn. inversion Hn; subst name'.
  destruct (bind_named_twice _ _ _ _ _ _ Hp Hi Hm) as [msg Hr].
  rewrite Hr. eexists. reflexivity.
Qed.

(** X12: in an episode during which the base class never reports [done],
    the wrapper reports [done] at the [HORIZON]-th step and at no other
    step, also when the caller keeps stepping past the horizon. *)
Theorem horizon_fires_once c h actions (self : Env B elem) bouts b' :
  HORIZON (consts_of c) = Some (CInt h) ->
  step_number self = 0 ->
  base_steps' (consts_of c) actions (base self) = (Ok bouts, b') ->
  (forall j raw r d0 inf,
      nth_error bouts j = Some (raw, r, d0, inf) -> d0 = false) ->
  exists outs self',
    steps' c actions self = (Ok outs, self')
    /\ List.length outs = List.length actions
    /\ forall j obs r d inf,
         nth_error outs j = Some (obs, r, d, inf) ->
         (d = true <-> Z.of_nat j + 1 = h).
Proof.
  intros Hh H0 Hb Hnever.
  destruct (steps_follow_base c h actions self bouts b' Hh Hb)
    as [outs [self' [Hr [_ [_ [Hlo [Hlb Hnth]]]]]]].
  exists outs, self'. split; [exact Hr |]. split; [exact Hlo |].
  intros j obs r d inf Hj.
  assert (Hlt : (j < List.length bouts)%nat).
  { rewrite Hlb, <- Hlo. apply nth_error_Some. rewrite Hj. discriminate. }
  destruct (nth_error bouts j) as [[[[raw r0] d0] inf0] |] eqn:Hbj.
  - destruct (Hnth j raw r0 d0 inf0 Hbj) as [obs' [ctx [Ho _]]].
    rewrite Hj in Ho. inversion Ho; subst.
    rewrite (Hnever j raw r0 d0 inf0 Hbj), H0. simpl.
    rewrite Z.eqb_eq. reflexivity.
  - apply nth_error_None in Hbj. lia.
Qed.

End GatherProperties.

(** ** The theorems on the sample environment *)

Lemma split_with_bins_witness :
  (exists d self',
      Sample.step AntGatherEnv tt (Sample.env 2 [1; 2; 3; 4; 5; 6; 7] false 0)
      = (Ok (without_last 4 [1; 2; 3; 4; 5; 6; 7], 1, d, []), self')
      /\ current_context self' = Some (last_elements 4 [1; 2; 3; 4; 5; 6; 7]))
  /\ (exists self',
      Sample.reset AntGatherEnv true (Sample.env 2 [1; 2; 3; 4; 5; 6; 7] false 0)
      = (Ok (without_last 4 [1; 2; 3; 4; 5; 6; 7]), self')
      /\ current_context self' = Some (last_elements 4 [1; 2; 3; 4; 5; 6; 7])).
Proof.
  apply (split_with_bins Sample.state Z unit Z Sample.n_bins
           Sample.base_step Sample.base_reset AntGatherEnv tt true
           (Sample.env 2 [1; 2; 3; 4; 5; 6; 7] false 0)
           [1; 2; 3; 4; 5; 6; 7] 1 false [("outer_rew", PyInt 1)]
           (Sample.mkState 2 [1; 2; 3; 4; 5; 6; 7] false)
           [1; 2; 3; 4; 5; 6; 7]
           (Sample.mkState 2 [1; 2; 3; 4; 5; 6; 7] false)).
  - reflexivity.
  - reflexivity.
  - simpl. lia.
  - simpl. lia.
Defined.

Lemma C1_split_swapped_without_bins_witness :
  (exists d self',
      Sample.step AntGatherEnv tt (Sample.env 0 [1; 2; 3] false 0)
      = (Ok ([], 1, d, []), self')
      /\ current_context self' = Some [1; 2; 3]
      /\ without_last (Z.to_nat (2 * 0)) [1; 2; 3] = [1; 2; 3]
      /\ last_elements (Z.to_nat (2 * 0)) [1; 2; 3] = []
      /\ [] <> without_last (Z.to_nat (2 * 0)) [1; 2; 3]
      /\ Some [1; 2; 3] <> Some (last_elements (Z.to_nat (2 * 0)) [1; 2; 3]))
  /\ (exists self',
      Sample.reset AntGatherEnv true (Sample.env 0 [1; 2; 3] false 0)
      = (Ok [], self')
      /\ current_context self' = Some [1; 2; 3]
      /\ without_last (Z.to_nat (2 * 0)) [1; 2; 3] = [1; 2; 3]
      /\ last_elements (Z.to_nat (2 * 0)) [1; 2; 3] = []
      /\ [] <> without_last (Z.to_nat (2 * 0)) [1; 2; 3]
      /\ Some [1; 2; 3] <> Some (last_elements (Z.to_nat (2 * 0)) [1; 2; 3])).
Proof.
  apply (C1_split_swapped_without_bins Sample.state Z unit Z Sample.n_bins
           Sample.base_step Sample.base_reset AntGatherEnv tt true
           (Sample.env 0 [1; 2; 3] false 0)
           [1; 2; 3] 1 false [("outer_rew", PyInt 1)]
           (Sample.mkState 0 [1; 2; 3] false)
           [1; 2; 3]
           (Sample.mkState 0 [1; 2; 3] false)).
  - reflexivity.
  - reflexivity.
  - reflexivity.
  - reflexivity.
  - discriminate.
  - discriminate.
Defined.

Lemma C2_done_at_horizon_witness :
  exists obs self3,
    Sample.step AntGatherEnv tt
      {| base := Sample.mkState 1 [1; 2; 3; 4] false;
         step_number := 499;
         current_context := Some [3; 4] |}
    = (Ok (obs, 1, true, []), self3)
    /\ step_number self3 = 500.
Proof.
  apply (C2_done_at_horizon Sample.state Z unit Z Sample.n_bins
           Sample.base_step Sample.base_reset AntGatherEnv 500 true
           (Sample.env 1 [1; 2; 3; 4] false 7)
           {| base := Sample.mkState 1 [1; 2; 3; 4] false;
              step_number := 0;
              current_context := Some [3; 4] |}
           {| base := Sample.mkState 1 [1; 2; 3; 4] false;
              step_number := 499;
              current_context := Some [3; 4] |}
           [1; 2] (repeat tt 499) (repeat ([1; 2], 1, false, []) 499)
           tt [1; 2; 3; 4] 1 false [("outer_rew", PyInt 1)]
           (Sample.mkState 1 [1; 2; 3; 4] false)).
  - reflexivity.
  - reflexivity.
  - vm_compute. reflexivity.
  - reflexivity.
  - reflexivity.
Defined.

Lemma C3_reset_zeroes_step_number_witness :
  exists obs self',
    Sample.reset SnakeGatherEnv true (Sample.env 1 [1; 2; 3; 4] false 7)
    = (Ok obs, self')
    /\ step_number self' = 0.
Proof.
  apply (proj2 (C3_reset_zeroes_step_number Sample.state Z Sample.n_bins
                  Sample.base_reset SnakeGatherEnv true
                  (Sample.env 1 [1; 2; 3; 4] false 7))
           [1; 2; 3; 4] (Sample.mkState 1 [1; 2; 3; 4] false)).
  reflexivity.
Defined.

Lemma C4_step_number_counter_witness :
  step_number
    (snd (Sample.step SwimmerGatherEnv tt (Sample.env 1 [1; 2; 3; 4] false 41)))
  = 41 + 1.
Proof.
  apply (proj1 (proj2 (proj2
           (C4_step_number_counter Sample.state Z unit Z Sample.n_bins
              Sample.max_dim Sample.robot_observation_space Sample.base_init
              Sample.base_step Sample.base_reset SwimmerGatherEnv)))
           tt (Sample.env 1 [1; 2; 3; 4] false 41) _ ([1; 2], 1, false, [])).
  reflexivity.
Defined.

Lemma C5_context_space_length_mismatch_witness :
  exists out self',
    Sample.step AntGatherEnv tt (Sample.env 0 [1; 2; 3] false 0)
    = (Ok out, self')
    /\ current_context self' = Some [1; 2; 3]
    /\ Sample.context_space AntGatherEnv self'
       = (Ok {| low := NegInf; high := PosInf; shape := [0];
                box_dtype := np_float32 |},
          self')
    /\ [0] <> [Z.of_nat (List.length [1; 2; 3])].
Proof.
  apply (C5_context_space_length_mismatch Sample.state Z unit Z
           Sample.n_bins Sample.max_dim Sample.base_step AntGatherEnv tt
           (Sample.env 0 [1; 2; 3] false 0)
           [1; 2; 3] 1 false [("outer_rew", PyInt 1)]
           (Sample.mkState 0 [1; 2; 3] false)).
  - reflexivity.
  - reflexivity.
  - discriminate.
  - vm_compute. discriminate.
Defined.

Lemma context_space_matches_context_witness :
  exists out self' ctx,
    Sample.step AntGatherEnv tt (Sample.env 2 [1; 2; 3; 4; 5; 6; 7] false 0)
    = (Ok out, self')
    /\ current_context self' = Some ctx
    /\ Z.of_nat (List.length ctx) = 2 * 2
    /\ Sample.context_space AntGatherEnv self'
       = (Ok {| low := NegInf; high := PosInf;
                shape := [Z.of_nat (List.length ctx)];
                box_dtype := np_float32 |},
          self').
Proof.
  apply (context_space_matches_context Sample.state Z unit Z Sample.n_bins
           Sample.max_dim Sample.base_step AntGatherEnv tt
           (Sample.env 2 [1; 2; 3; 4; 5; 6; 7] false 0)
           [1; 2; 3; 4; 5; 6; 7] 1 false [("outer_rew", PyInt 1)]
           (Sample.mkState 2 [1; 2; 3; 4; 5; 6; 7] false)).
  - reflexivity.
  - simpl. lia.
  - vm_compute. discriminate.
  - simpl. lia.
Defined.

Lemma descriptors_are_read_only_witness :
  exists msg,
    Sample.context_space SwimmerGatherEnv (Sample.env (-1) [1; 2; 3] false 0)
    = (Raise (ValueError msg), Sample.env (-1) [1; 2; 3] false 0).
Proof.
  apply (proj1 (proj2 (proj2 (proj2
           (descriptors_are_read_only Sample.state Z unit Z Sample.n_bins
              Sample.max_dim Sample.robot_observation_space
              Sample.base_step Sample.base_reset SwimmerGatherEnv
              (Sample.env (-1) [1; 2; 3] false 0)))))).
  left. simpl. lia.
Defined.

Lemma C7_constructor_forwards_witness :
  super_init_call
    {| positional := [PyInt 4; PyInt 5];
       keywords := [("n_bins", PyInt 6); ("ego_obs", PyBool true)] |}
  = Ok {| positional := [];
          keywords :=
            [("n_apples", PyInt 4); ("n_bombs", PyInt 5);
             ("activity_range", PyFloat 10 0);
             ("robot_object_spacing", PyFloat 2 0);
             ("catch_range", PyFloat 1 0); ("n_bins", PyInt 6);
             ("sensor_range", PyFloat 6 0); ("sensor_span", two_math_pi);
             ("coef_inner_rew", PyFloat 0 0); ("dying_cost", PyInt 0);
             ("ego_obs", PyBool true)] |}
  /\ assoc "n_bombs"
       (keywords
          {| positional := [];
             keywords :=
               [("n_apples", PyInt 4); ("n_bombs", PyInt 5);
                ("activity_range", PyFloat 10 0);
                ("robot_object_spacing", PyFloat 2 0);
                ("catch_range", PyFloat 1 0); ("n_bins", PyInt 6);
                ("sensor_range", PyFloat 6 0); ("sensor_span", two_math_pi);
                ("coef_inner_rew", PyFloat 0 0); ("dying_cost", PyInt 0);
                ("ego_obs", PyBool true)] |})
     = Some (match nth_error [PyInt 4; PyInt 5] 1 with
             | Some v => v
             | None =>
                 match assoc "n_bombs"
                         [("n_bins", PyInt 6); ("ego_obs", PyBool true)]
                 with
                 | Some v => v
                 | None => PyInt 8
                 end
             end).
Proof.
  split; [reflexivity |].
  apply (proj1 (C7_constructor_forwards Sample.state Z Sample.base_init
                  AntGatherEnv
                  {| positional := [PyInt 4; PyInt 5];
                     keywords := [("n_bins", PyInt 6); ("ego_obs", PyBool true)] |}
                  _ eq_refl) 1%nat "n_bombs" (PyInt 8)).
  reflexivity.
Defined.

Lemma C9_info_empty_witness :
  exists obs d self',
    Sample.step AntGatherEnv tt (Sample.env 1 [1; 2; 3; 4] false 0)
    = (Ok (obs, 1, d, []), self').
Proof.
  apply (C9_info_empty Sample.state Z unit Z Sample.n_bins Sample.base_step
           AntGatherEnv tt (Sample.env 1 [1; 2; 3; 4] false 0)
           [1; 2; 3; 4] 1 false [("outer_rew", PyInt 1)]
           (Sample.mkState 1 [1; 2; 3; 4] false)).
  reflexivity.
Defined.

Lemma C10_horizon_exact_witness :
  exists obs d self',
    Sample.step AntGatherEnv tt (Sample.env 1 [1; 2; 3; 4] false 500)
    = (Ok (obs, 1, d, []), self')
    /\ d = false || (500 + 1 =? 500)
    /\ (d = true <-> false = true \/ 500 + 1 = 500)
    /\ (500 <= 500 -> d = false).
Proof.
  apply (C10_horizon_exact Sample.state Z unit Z Sample.n_bins Sample.base_step
           AntGatherEnv 500 tt (Sample.env 1 [1; 2; 3; 4] false 500)
           [1; 2; 3; 4] 1 false [("outer_rew", PyInt 1)]
           (Sample.mkState 1 [1; 2; 3; 4] false)).
  - reflexivity.
  - reflexivity.
Defined.

(** ** The further properties on the sample environments *)

Lemma step_propagates_exception_witness :
  exists self',
    Faulty.step AntGatherEnv false (Sample.env 1 [1; 2; 3; 4] false 3)
    = (Raise (BaseError "MujocoException"), self')
    /\ base self' = Sample.mkState 1 [1; 2; 3; 4] true
    /\ step_number self' = 3
    /\ current_context self' = None.
Proof.
  apply (step_propagates_exception Sample.state Z bool Z Sample.n_bins
           Faulty.base_step AntGatherEnv false
           (Sample.env 1 [1; 2; 3; 4] false 3)
           (BaseError "MujocoException")
           (Sample.mkState 1 [1; 2; 3; 4] true)).
  reflexivity.
Defined.

Lemma reset_raises_after_zeroing_witness :
  exists self',
    Faulty.reset SnakeGatherEnv false
      {| base := Sample.mkState 1 [1; 2; 3; 4] false;
         step_number := 17;
         current_context := Some [3; 4] |}
    = (Raise (BaseError "reset"), self')
    /\ base self' = Sample.mkState 1 [1; 2; 3; 4] false
    /\ step_number self' = 0
    /\ current_context self' = Some [3; 4].
Proof.
  apply (reset_raises_after_zeroing Sample.state Z Sample.n_bins
           Faulty.base_reset SnakeGatherEnv false
           {| base := Sample.mkState 1 [1; 2; 3; 4] false;
              step_number := 17;
              current_context := Some [3; 4] |}
           (BaseError "reset")
           (Sample.mkState 1 [1; 2; 3; 4] false)).
  reflexivity.
Defined.

Lemma split_is_lossless_witness :
  (exists obs d ctx self',
      Sample.step AntGatherEnv tt (Sample.env (-1) [1; 2; 3; 4; 5] false 0)
      = (Ok (obs, 1, d, []), self')
      /\ current_context self' = Some ctx
      /\ (obs ++ ctx)%list = [1; 2; 3; 4; 5])
  /\ (exists obs ctx self',
      Sample.reset AntGatherEnv true (Sample.env (-1) [1; 2; 3; 4; 5] false 0)
      = (Ok obs, self')
      /\ current_context self' = Some ctx
      /\ (obs ++ ctx)%list = [1; 2; 3; 4; 5]).
Proof.
  apply (split_is_lossless Sample.state Z unit Z Sample.n_bins
           Sample.base_step Sample.base_reset AntGatherEnv tt true
           (Sample.env (-1) [1; 2; 3; 4; 5] false 0)
           [1; 2; 3; 4; 5] 1 false [("outer_rew", PyInt 1)]
           (Sample.mkState (-1) [1; 2; 3; 4; 5] false)
           [1; 2; 3; 4; 5]
           (Sample.mkState (-1) [1; 2; 3; 4; 5] false)).
  - reflexivity.
  - reflexivity.
Defined.

Lemma split_without_bins_witness :
  (exists d self',
      Sample.step AntGatherEnv tt (Sample.env 0 [1; 2; 3] false 0)
      = (Ok (firstn (Z.to_nat (-2 * 0)) [1; 2; 3], 1, d, []), self')
      /\ current_context self' = Some (skipn (Z.to_nat (-2 * 0)) [1; 2; 3])
      /\ (0 = 0 ->
          Sample.step AntGatherEnv tt (Sample.env 0 [1; 2; 3] false 0)
          = (Ok ([], 1, d, []), self')
          /\ current_context self' = Some [1; 2; 3]))
  /\ (exists self',
      Sample.reset AntGatherEnv true (Sample.env 0 [1; 2; 3] false 0)
      = (Ok (firstn (Z.to_nat (-2 * 0)) [1; 2; 3]), self')
      /\ current_context self' = Some (skipn (Z.to_nat (-2 * 0)) [1; 2; 3])
      /\ (0 = 0 ->
          Sample.reset AntGatherEnv true (Sample.env 0 [1; 2; 3] false 0)
          = (Ok [], self')
          /\ current_context self' = Some [1; 2; 3])).
Proof.
  apply (split_without_bins Sample.state Z unit Z Sample.n_bins
           Sample.base_step Sample.base_reset AntGatherEnv tt true
           (Sample.env 0 [1; 2; 3] false 0)
           [1; 2; 3] 1 false [("outer_rew", PyInt 1)]
           (Sample.mkState 0 [1; 2; 3] false)
           [1; 2; 3]
           (Sample.mkState 0 [1; 2; 3] false)).
  - reflexivity.
  - reflexivity.
  - simpl. lia.
  - simpl. lia.
Defined.

Lemma split_of_short_observation_witness :
  (exists d self',
      Sample.step AntGatherEnv tt (Sample.env 2 [1; 2; 3] false 0)
      = (Ok ([], 1, d, []), self')
      /\ current_context self' = Some [1; 2; 3])
  /\ (exists self',
      Sample.reset AntGatherEnv true (Sample.env 2 [1; 2; 3] false 0)
      = (Ok [], self')
      /\ current_context self' = Some [1; 2; 3]).
Proof.
  apply (split_of_short_observation Sample.state Z unit Z Sample.n_bins
           Sample.base_step Sample.base_reset AntGatherEnv tt true
           (Sample.env 2 [1; 2; 3] false 0)
           [1; 2; 3] 1 false [("outer_rew", PyInt 1)]
           (Sample.mkState 2 [1; 2; 3] false)
           [1; 2; 3]
           (Sample.mkState 2 [1; 2; 3] false)).
  - reflexivity.
  - reflexivity.
  - simpl. lia.
  - simpl. lia.
  - simpl. lia.
  - simpl. lia.
Defined.

Lemma split_sizes_witness :
  (exists obs d ctx self',
      Sample.step AntGatherEnv tt (Sample.env 2 [1; 2; 3; 4; 5; 6; 7] false 0)
      = (Ok (obs, 1, d, []), self')
      /\ current_context self' = Some ctx
      /\ Z.of_nat (List.length obs) = Z.max (7 - 2 * 2) 0
      /\ Z.of_nat (List.length ctx) = Z.min (2 * 2) 7)
  /\ (exists obs ctx self',
      Sample.reset AntGatherEnv true (Sample.env 2 [1; 2; 3; 4; 5; 6; 7] false 0)
      = (Ok obs, self')
      /\ current_context self' = Some ctx
      /\ Z.of_nat (List.length obs) = Z.max (7 - 2 * 2) 0
      /\ Z.of_nat (List.length ctx) = Z.min (2 * 2) 7).
Proof.
  apply (split_sizes Sample.state Z unit Z Sample.n_bins
           Sample.base_step Sample.base_reset AntGatherEnv tt true
           (Sample.env 2 [1; 2; 3; 4; 5; 6; 7] false 0)
           [1; 2; 3; 4; 5; 6; 7] 1 false [("outer_rew", PyInt 1)]
           (Sample.mkState 2 [1; 2; 3; 4; 5; 6; 7] false)
           [1; 2; 3; 4; 5; 6; 7]
           (Sample.mkState 2 [1; 2; 3; 4; 5; 6; 7] false)).
  - reflexivity.
  - reflexivity.
  - simpl. lia.
  - simpl. lia.
Defined.

Lemma run_follows_base_witness :
  exists outs self',
    Sample.steps SnakeGatherEnv [tt; tt] (Sample.env 1 [1; 2; 3; 4] true 798)
    = (Ok outs, self')
    /\ base self' = Sample.mkState 1 [1; 2; 3; 4] true
    /\ step_number self' = 798 + 2
    /\ List.length outs = 2%nat
    /\ List.length
         [([1; 2; 3; 4], 1, true, [("outer_rew", PyInt 1)]);
          ([1; 2; 3; 4], 1, true, [("outer_rew", PyInt 1)])] = 2%nat
    /\ forall j raw r d0 inf,
         nth_error
           [([1; 2; 3; 4], 1, true, [("outer_rew", PyInt 1)]);
            ([1; 2; 3; 4], 1, true, [("outer_rew", PyInt 1)])] j
         = Some (raw, r, d0, inf) ->
         exists obs ctx,
           nth_error outs j
           = Some (obs, r, d0 || (798 + Z.of_nat j + 1 =? 800), [])
           /\ (obs ++ ctx)%list = raw.
Proof.
  apply (run_follows_base Sample.state Z unit Z Sample.n_bins
           Sample.base_step SnakeGatherEnv 800 [tt; tt]
           (Sample.env 1 [1; 2; 3; 4] true 798)
           [([1; 2; 3; 4], 1, true, [("outer_rew", PyInt 1)]);
            ([1; 2; 3; 4], 1, true, [("outer_rew", PyInt 1)])]
           (Sample.mkState 1 [1; 2; 3; 4] true)).
  - reflexivity.
  - reflexivity.
Defined.

Lemma current_context_lifecycle_witness :
  current_context
    (snd (Sample.reset AntGatherEnv true (Sample.env 1 [1; 2; 3; 4] false 5)))
  <> None.
Proof.
  apply (proj1 (proj2
           (current_context_lifecycle Sample.state Z unit Z Sample.n_bins
              Sample.max_dim Sample.robot_observation_space Sample.base_init
              Sample.base_step Sample.base_reset AntGatherEnv))
           true (Sample.env 1 [1; 2; 3; 4] false 5) _ [1; 2]).
  reflexivity.
Defined.

Lemma forwarded_keywords_well_formed_witness :
  map fst
    [("n_apples", PyInt 4); ("n_bombs", PyInt 5);
     ("activity_range", PyFloat 10 0);
     ("robot_object_spacing", PyFloat 2 0);
     ("catch_range", PyFloat 1 0); ("n_bins", PyInt 6);
     ("sensor_range", PyFloat 6 0); ("sensor_span", two_math_pi);
     ("coef_inner_rew", PyFloat 0 0); ("dying_cost", PyInt 0);
     ("ego_obs", PyBool true)]
  = (param_names ++ ["ego_obs"])%list
  /\ keys_distinct
       [("n_apples", PyInt 4); ("n_bombs", PyInt 5);
        ("activity_range", PyFloat 10 0);
        ("robot_object_spacing", PyFloat 2 0);
        ("catch_range", PyFloat 1 0); ("n_bins", PyInt 6);
        ("sensor_range", PyFloat 6 0); ("sensor_span", two_math_pi);
        ("coef_inner_rew", PyFloat 0 0); ("dying_cost", PyInt 0);
        ("ego_obs", PyBool true)] = true
  /\ [("ego_obs", PyBool true)]
     = filter (fun kv => negb (mem (fst kv) param_names))
         [("n_bins", PyInt 6); ("ego_obs", PyBool true)].
Proof.
  apply (forwarded_keywords_well_formed
           {| positional := [PyInt 4; PyInt 5];
              keywords := [("n_bins", PyInt 6); ("ego_obs", PyBool true)] |}
           {| positional := [];
              keywords :=
                [("n_apples", PyInt 4); ("n_bombs", PyInt 5);
                 ("activity_range", PyFloat 10 0);
                 ("robot_object_spacing", PyFloat 2 0);
                 ("catch_range", PyFloat 1 0); ("n_bins", PyInt 6);
                 ("sensor_range", PyFloat 6 0); ("sensor_span", two_math_pi);
                 ("coef_inner_rew", PyFloat 0 0); ("dying_cost", PyInt 0);
                 ("ego_obs", PyBool true)] |}).
  reflexivity.
Defined.

Lemma init_rejects_double_binding_witness :
  exists msg,
    Sample.init AntGatherEnv
      {| positional := [PyInt 4]; keywords := [("n_apples", PyInt 3)] |}
    = Raise (TypeError msg).
Proof.
  apply (init_rejects_double_binding Sample.state Z Sample.base_init
           AntGatherEnv
           {| positional := [PyInt 4]; keywords := [("n_apples", PyInt 3)] |}
           0%nat "n_apples").
  - reflexivity.
  - simpl. lia.
  - reflexivity.
Defined.

Lemma horizon_fires_once_witness :
  exists outs self',
    Sample.steps AntGatherEnv (repeat tt 501) (Sample.env 1 [1; 2; 3; 4] false 0)
    = (Ok outs, self')
    /\ List.length outs = List.length (repeat tt 501)
    /\ forall j obs r d inf,
         nth_error outs j = Some (obs, r, d, inf) ->
         (d = true <-> Z.of_nat j + 1 = 500).
Proof.
  apply (horizon_fires_once Sample.state Z unit Z Sample.n_bins
           Sample.base_step AntGatherEnv 500 (repeat tt 501)
           (Sample.env 1 [1; 2; 3; 4] false 0)
           (repeat ([1; 2; 3; 4], 1, false, [("outer_rew", PyInt 1)]) 501)
           (Sample.mkState 1 [1; 2; 3; 4] false)).
  - reflexivity.
  - reflexivity.
  - vm_compute. reflexivity.
  - intros j raw r d0 inf Hj. apply nth_error_In in Hj.
    apply repeat_spec in Hj. inversion Hj. reflexivity.
Defined.
